(** * Fathom MCP server: the meeting aggregator, the search filter and the
      transcript tool

    A shallow embedding of [src/tools/meetings.ts] (the version that reaches
    the transcript endpoint over plain HTTP) and of its predecessor that went
    through the SDK.  The pagination loop of [fetchAllMeetings] talks to the
    upstream service and need not terminate, so it is an interaction tree;
    the filter, the projection and the transcript formatting are pure
    functions of the values the awaits deliver. *)

From Stdlib Require Import String Ascii List ZArith Lia Bool SpecFloat.
From Stdlib Require Import DecimalString.
From ITree Require Import ITree ITreeFacts Events.State Events.StateFacts.
From ITree Require Import Props.Leaf.
From Paco Require Import paco.
Import ListNotations.
Import ITreeNotations.

Set Warnings "-register-all".

Local Open Scope string_scope.
Local Open Scope itree_scope.
Local Open Scope list_scope.
Local Open Scope bool_scope.
Local Open Scope Z_scope.

(* ===================================================================== *)
(** ** JavaScript strings *)
(* ===================================================================== *)

(** A string is held as the bytes of its UTF-8 form, the form in which it
    travels in a request and in the answers of the service: an ASCII
    character is one byte below 128, any other character is two to four
    bytes from 128 up.  One well-formed string occurs in another as a run of
    code units exactly when it does as a run of bytes.  [undefined] and
    [null] are the [None] of an [option string]. *)

Definition JsString := string.

Definition isAsciiUnit (c : ascii) : bool := (N_of_ascii c <? 128)%N.

(** A string of ASCII characters. *)
Fixpoint isAscii (s : JsString) : bool :=
  match s with
  | EmptyString => true
  | String c s' => isAsciiUnit c && isAscii s'
  end.

(** Lower case of an ASCII character: A-Z move up by 32, the others stay. *)
Definition lowerCodeUnit (c : ascii) : ascii :=
  let n := N_of_ascii c in
  if ((65 <=? n) && (n <=? 90))%N then ascii_of_N (n + 32) else c.

Fixpoint lowerAscii (s : JsString) : JsString :=
  match s with
  | EmptyString => EmptyString
  | String c s' => String (lowerCodeUnit c) (lowerAscii s')
  end.

(** [String.prototype.toLowerCase] belongs to the runtime.  It follows the
    case mappings of Unicode, among them a rule that looks at the neighbours
    of a character (a capital sigma at the end of a word becomes a final
    sigma) and mappings that change the length of a string, so it is no map
    of single characters.  ASCII text it takes to lower case character by
    character. *)
Class StringRuntime := {
  toLowerCase : JsString -> JsString;
  toLowerCase_ascii :
    forall s, isAscii s = true -> toLowerCase s = lowerAscii s
}.

(** [String.prototype.includes]: is there a position of [s] at which [kw]
    starts? *)
Fixpoint includes (s kw : JsString) : bool :=
  String.prefix kw s ||
  match s with
  | EmptyString => false
  | String _ s' => includes s' kw
  end.

(** A possibly missing string used as a condition, [if (x) ...]: [undefined],
    [null] and the empty string are falsy; a truthy [x] is a non-empty
    string, which the branch then uses. *)
Definition truthyString (x : option JsString) : option JsString :=
  match x with
  | Some s => if String.eqb s EmptyString then None else Some s
  | None => None
  end.

(** [x?.toLowerCase().includes(kw)]: [undefined] (here [None]) when [x] is
    missing, the boolean otherwise. *)
Definition optLowerIncludes {SR : StringRuntime} (x : option JsString)
  (kw : JsString) : option bool :=
  match x with
  | Some s => Some (includes (toLowerCase s) kw)
  | None => None
  end.

(** Truthiness of [undefined | boolean]. *)
Definition truthyOptBool (o : option bool) : bool :=
  match o with
  | Some b => b
  | None => false
  end.

(** [a || b] on [undefined | boolean]: [a] when it is truthy, [b] otherwise. *)
Definition orElse (a b : option bool) : option bool :=
  if truthyOptBool a then a else b.

(* ===================================================================== *)
(** ** JavaScript numbers *)
(* ===================================================================== *)

(** A number is a binary64 value, in the form the IEEE 754 specification
    gives it: a signed zero, an infinity, NaN, or a sign, a mantissa and an
    exponent. *)
Definition JsNumber := spec_float.

(** The number that is the integer [z]. *)
Definition numberOfZ (z : Z) : JsNumber := binary_normalize 53 1024 z 0 false.

(** [!!x]: zero and NaN are falsy. *)
Definition truthyNumber (x : JsNumber) : bool :=
  match x with
  | S754_zero _ | S754_nan => false
  | S754_infinity _ | S754_finite _ _ _ => true
  end.

(* ===================================================================== *)
(** ** JavaScript dates *)
(* ===================================================================== *)

(** A [Date] object is its time value: milliseconds since the epoch, or NaN
    ([None], an invalid date). *)
Definition JsDate := option Z.

Definition msPerDay : Z := 86400000.
Definition msPerHour : Z := 3600000.
Definition msPerMinute : Z := 60000.
Definition msPerSecond : Z := 1000.

(** The largest magnitude a time value may have. *)
Definition maxTimeValue : Z := 8640000000000000.

Definition Day (t : Z) : Z := t / msPerDay.
Definition TimeWithinDay (t : Z) : Z := t mod msPerDay.

Definition MakeTime (hour min sec ms : Z) : Z :=
  hour * msPerHour + min * msPerMinute + sec * msPerSecond + ms.

Definition MakeDate (day time : Z) : Z := day * msPerDay + time.

Definition TimeClip (t : Z) : JsDate :=
  if Z.abs t <=? maxTimeValue then Some t else None.

(** What the runtime decides about dates: how [new Date(string)] reads a
    string (NaN when it cannot, as for the empty string) and the offset of
    local time, [LocalTZA t isUTC], at a UTC instant ([isUTC = true]) or at a
    local time ([isUTC = false]). *)
Class DateRuntime := {
  Date_parse : JsString -> JsDate;
  LocalTZA : Z -> bool -> Z;
  (** [new Date] of the empty string is an invalid date. *)
  Date_parse_empty : Date_parse EmptyString = None
}.

Section Dates.
Context {DR : DateRuntime}.

Definition LocalTime (t : Z) : Z := t + LocalTZA t true.
Definition UTC (t : Z) : Z := t - LocalTZA t false.

(** [Date.prototype.setHours(hour, min, sec, ms)]: keeps the local calendar
    day of the date and replaces the time within it; an invalid date stays
    invalid. *)
Definition setHours (d : JsDate) (hour min sec ms : Z) : JsDate :=
  match d with
  | None => None
  | Some tv =>
      let t := LocalTime tv in
      let date := MakeDate (Day t) (MakeTime hour min sec ms) in
      TimeClip (UTC date)
  end.

(** The local time [date] exists and is not repeated in the zone: the offset
    at the instant it denotes is the offset it was converted with (it fails
    only around a change of the zone's offset). *)
Definition zoneSteadyAt (date : Z) : Prop :=
  LocalTZA (UTC date) true = LocalTZA date false.

(** [const startDate = new Date(s); startDate.setHours(0, 0, 0, 0)] *)
Definition startOfDay (s : JsString) : JsDate :=
  setHours (Date_parse s) 0 0 0 0.

(** [const endDate = new Date(s); endDate.setHours(23, 59, 59, 999)] *)
Definition endOfDay (s : JsString) : JsDate :=
  setHours (Date_parse s) 23 59 59 999.
End Dates.

(** [a >= b] and [a <= b] on dates compare the time values; a comparison with
    NaN on either side is false. *)
Definition dateGe (a b : JsDate) : bool :=
  match a, b with
  | Some x, Some y => (y <=? x)
  | _, _ => false
  end.

Definition dateLe (a b : JsDate) : bool :=
  match a, b with
  | Some x, Some y => (x <=? y)
  | _, _ => false
  end.

(* ===================================================================== *)
(** ** Meetings and the arguments of [search_meetings] *)
(* ===================================================================== *)

Record Invitee := {
  name : option JsString;
  email : option JsString
}.

(** A meeting as the SDK hands it over.  The fields the code reaches with
    [?.] may be missing. *)
Record Meeting := {
  recordingId : JsNumber;
  title : option JsString;
  meetingTitle : option JsString;
  scheduledStartTime : JsDate;
  scheduledEndTime : JsDate;
  url : option JsString;
  shareUrl : option JsString;
  calendarInvitees : option (list Invitee)
}.

(** The [args] of [search_meetings]; every field is optional. *)
Record SearchArgs := {
  participantKeywords : option (list JsString);
  titleKeywords : option (list JsString);
  startDate : option JsString;
  endDate : option JsString
}.

(** The same arguments with one of the dates left out. *)
Definition withoutStart (args : SearchArgs) : SearchArgs :=
  {| participantKeywords := participantKeywords args;
     titleKeywords := titleKeywords args;
     startDate := None;
     endDate := endDate args |}.

Definition withoutEnd (args : SearchArgs) : SearchArgs :=
  {| participantKeywords := participantKeywords args;
     titleKeywords := titleKeywords args;
     startDate := startDate args;
     endDate := None |}.

(** [x || []] *)
Definition orEmpty {A} (x : option (list A)) : list A :=
  match x with
  | Some l => l
  | None => []
  end.

(** [[...(args.participantKeywords || []), ...(args.titleKeywords || [])]] *)
Definition allKeywords (args : SearchArgs) : list JsString :=
  orEmpty (participantKeywords args) ++ orEmpty (titleKeywords args).

Section Filter.
Context {SR : StringRuntime} {DR : DateRuntime}.

(** The callback of [calendarInvitees?.some]. *)
Definition inviteeHas (keywordLower : JsString) (invitee : Invitee) : bool :=
  truthyOptBool
    (orElse (optLowerIncludes (name invitee) keywordLower)
            (optLowerIncludes (email invitee) keywordLower)).

(** [meeting.calendarInvitees?.some(...)] *)
Definition foundInParticipants (meeting : Meeting) (keywordLower : JsString)
  : option bool :=
  match calendarInvitees meeting with
  | Some invitees => Some (existsb (inviteeHas keywordLower) invitees)
  | None => None
  end.

Definition foundInTitle (meeting : Meeting) (keywordLower : JsString)
  : option bool :=
  orElse (optLowerIncludes (title meeting) keywordLower)
         (optLowerIncludes (meetingTitle meeting) keywordLower).

(** The callback of [allKeywords.some]. *)
Definition keywordHits (meeting : Meeting) (keyword : JsString) : bool :=
  let keywordLower := toLowerCase keyword in
  truthyOptBool
    (orElse (foundInParticipants meeting keywordLower)
            (foundInTitle meeting keywordLower)).

Definition keywordMatch (args : SearchArgs) (meeting : Meeting) : bool :=
  match allKeywords args with
  | [] => true
  | _ :: _ => existsb (keywordHits meeting) (allKeywords args)
  end.

Definition dateMatch (args : SearchArgs) (meeting : Meeting) : bool :=
  let dateMatch0 := true in
  match truthyString (startDate args), truthyString (endDate args) with
  | None, None => dateMatch0
  | start, end_ =>
      let meetingDate := scheduledStartTime meeting in
      let dateMatch1 :=
        match start with
        | Some s => dateMatch0 && dateGe meetingDate (startOfDay s)
        | None => dateMatch0
        end in
      let dateMatch2 :=
        match end_ with
        | Some s => dateMatch1 && dateLe meetingDate (endOfDay s)
        | None => dateMatch1
        end in
      dateMatch2
  end.

(** The date test, one bound at a time. *)
Definition startMatch (args : SearchArgs) (m : Meeting) : bool :=
  match truthyString (startDate args) with
  | Some s => dateGe (scheduledStartTime m) (startOfDay s)
  | None => true
  end.

Definition endMatch (args : SearchArgs) (m : Meeting) : bool :=
  match truthyString (endDate args) with
  | Some s => dateLe (scheduledStartTime m) (endOfDay s)
  | None => true
  end.

(** The callback of [allMeetings.filter]. *)
Definition searchFilter (args : SearchArgs) (meeting : Meeting) : bool :=
  keywordMatch args meeting && dateMatch args meeting.

Definition filteredMeetings (args : SearchArgs) (allMeetings : list Meeting)
  : list Meeting :=
  filter (searchFilter args) allMeetings.
End Filter.

(* ===================================================================== *)
(** ** The meeting aggregator: [fetchAllMeetings] *)
(* ===================================================================== *)

(** An exception value, as [`${error}`] prints it. *)
Definition JsError := JsString.

(** What an [await] inside a [try] delivers: the value of the fulfilled
    promise, or the error of the rejected one, which the [catch] receives. *)
Inductive Settled (A : Type) : Type :=
| Fulfilled (value : A)
| Rejected (error : JsError).
Arguments Fulfilled {A} value.
Arguments Rejected {A} error.

(** A pagination cursor: a string, or [null]/[undefined] ([None]). *)
Definition JsCursor := option JsString.

(** The argument of [fathom.listMeetings]. *)
Record ListMeetingsRequest := {
  cursor : JsCursor;
  includeSummary : bool;
  includeTranscript : bool
}.

(** [response.result] of a page. *)
Record ListMeetingsResult := {
  items : list Meeting;
  nextCursor : JsCursor
}.

Definition Page := Settled ListMeetingsResult.

(** The one call the aggregator makes to the outside. *)
Variant fathomE : Type -> Type :=
| ListMeetings (request : ListMeetingsRequest) : fathomE Page.

(** [!!cursor] *)
Definition truthyCursor (c : JsCursor) : bool :=
  match truthyString c with
  | Some _ => true
  | None => false
  end.

(** The variables of the loop. *)
Record LoopVars := {
  var_allMeetings : list Meeting;
  var_cursor : JsCursor;
  var_hasMorePages : bool;
  var_hadError : bool
}.

(** [{ meetings: allMeetings, hadError }] *)
Record Aggregate := {
  meetings : list Meeting;
  hadError : bool
}.

Definition initialVars : LoopVars :=
  {| var_allMeetings := [];
     var_cursor := Some EmptyString;
     var_hasMorePages := true;
     var_hadError := false |}.

Definition returned (v : LoopVars) : Aggregate :=
  {| meetings := var_allMeetings v; hadError := var_hadError v |}.

(** The [try] block once the page has arrived. *)
Definition pageArrived (v : LoopVars) (result : ListMeetingsResult) : LoopVars :=
  {| var_allMeetings := var_allMeetings v ++ items result;
     var_cursor := nextCursor result;
     var_hasMorePages := truthyCursor (nextCursor result);
     var_hadError := var_hadError v |}.

(** The [catch] block ([console.error] writes to the log only). *)
Definition pageFailed (v : LoopVars) : LoopVars :=
  {| var_allMeetings := var_allMeetings v;
     var_cursor := var_cursor v;
     var_hasMorePages := var_hasMorePages v;
     var_hadError := true |}.

Section Aggregator.
Variables includeSummary' includeTranscript' : bool.

(** [{ cursor: cursor, includeSummary, includeTranscript }] *)
Definition requestOf (v : LoopVars) : ListMeetingsRequest :=
  {| cursor := var_cursor v;
     includeSummary := includeSummary';
     includeTranscript := includeTranscript' |}.

(** One turn of [while (hasMorePages) { try { ... } catch { ...; break } }]:
    [inl] goes round again, [inr] leaves the loop and returns. *)
Definition loopTurn (v : LoopVars) : itree fathomE (LoopVars + Aggregate) :=
  if var_hasMorePages v then
    page <- ITree.trigger (ListMeetings (requestOf v));;
    match page with
    | Fulfilled result => Ret (inl (pageArrived v result))
    | Rejected _ => Ret (inr (returned (pageFailed v)))
    end
  else Ret (inr (returned v)).

Definition fetchAllMeetingsFrom (v : LoopVars) : itree fathomE Aggregate :=
  ITree.iter loopTurn v.

Definition fetchAllMeetings : itree fathomE Aggregate :=
  fetchAllMeetingsFrom initialVars.
End Aggregator.

(** *** The upstream service *)

(** The service as the aggregator sees it during one call: the pages it is
    going to answer with, in order, and the requests it has received.  When no
    answer is left the promise stays pending for ever. *)
Record Upstream := {
  answers : list Page;
  received : list ListMeetingsRequest
}.

Definition upstream : fathomE ~> Monads.stateT Upstream (itree void1) :=
  fun T e =>
    match e in fathomE T return Monads.stateT Upstream (itree void1) T with
    | ListMeetings request => fun u =>
        match answers u with
        | [] => ITree.spin
        | page :: rest =>
            Ret ({| answers := rest; received := received u ++ [request] |},
                 page)
        end
    end.

(** Running a tool against the service. *)
Definition runWith {R} (t : itree fathomE R) (u : Upstream)
  : itree void1 (Upstream * R) :=
  interp_state upstream t u.

(** *** Page sequences *)

Definition isFulfilled {A} (p : Settled A) : bool :=
  match p with Fulfilled _ => true | Rejected _ => false end.

(** A page after which the loop goes round again. *)
Definition continues (p : Page) : bool :=
  match p with
  | Fulfilled result => truthyCursor (nextCursor result)
  | Rejected _ => false
  end.

Definition pageItems (p : Page) : list Meeting :=
  match p with
  | Fulfilled result => items result
  | Rejected _ => []
  end.

Definition pageCursor (p : Page) : JsCursor :=
  match p with
  | Fulfilled result => nextCursor result
  | Rejected _ => None
  end.

(** The cursors sent while [pages] arrive, starting from [c]: each request
    carries the cursor the page before it handed out. *)
Fixpoint cursorsSent (c : JsCursor) (pages : list Page) : list JsCursor :=
  match pages with
  | [] => []
  | p :: rest => c :: cursorsSent (pageCursor p) rest
  end.

Definition requestsSent (summary transcript : bool) (c : JsCursor)
  (pages : list Page) : list ListMeetingsRequest :=
  List.map (fun c => {| cursor := c;
                        includeSummary := summary;
                        includeTranscript := transcript |})
           (cursorsSent c pages).


(* ===================================================================== *)
(** ** The [search_meetings] tool *)
(* ===================================================================== *)

(** One entry of [formattedMeetings]. *)
Record FormattedMeeting := {
  f_recordingId : JsNumber;
  f_title : option JsString;
  f_meetingTitle : option JsString;
  f_startedAt : JsString;
  f_endedAt : JsString;
  f_durationMinutes : JsNumber;
  f_url : option JsString;
  f_shareUrl : option JsString;
  f_participants : option (list Invitee)
}.

(** [structuredContent] of [search_meetings]. *)
Record SearchContent := {
  sc_meetings : list FormattedMeeting;
  sc_count : nat;
  sc_elicitationPrompt : option JsString
}.

(** What a tool hands back: the text of its one content entry, the structured
    content when there is one, and [isError] when the tool sets it. *)
Record ToolResult (S : Type) := {
  text : JsString;
  structuredContent : option S;
  isError : option bool
}.
Arguments text {S} _.
Arguments structuredContent {S} _.
Arguments isError {S} _.

(** What the runtime decides about text: the locale's rendering of a date
    (with the year, short month, day, hour and minute options the tool
    passes) and [JSON.stringify(formattedMeetings, null, 2)]. *)
Class MeetingText := {
  toLocaleDateString : JsDate -> JsString;
  stringifyMeetings : list FormattedMeeting -> JsString
}.

Definition ENABLE_ELICITATION : bool := true.

Definition elicitationText : JsString :=
  String (ascii_of_N 10) (String (ascii_of_N 10)
    "Would you like a summary or full transcript for any of these meetings? If so, please provide the recordingId.").

(** [date?.getTime()] as an operand of arithmetic: the time value, NaN for
    an invalid or a missing date. *)
Definition getTime (d : JsDate) : JsNumber :=
  match d with
  | Some t => numberOfZ t
  | None => S754_nan
  end.

(** [Math.round]: the nearest integer, a half going up; zeros, infinities
    and NaN are returned as they are, and what rounds to zero keeps the sign
    of the argument.  A finite [x] with a negative exponent [e] is the
    fraction of [v] over [d = 2^-e], and the floor of [x + 1/2] is the
    quotient of [2v + d] by [2d]. *)
Definition mathRound (x : JsNumber) : JsNumber :=
  match x with
  | S754_finite s m e =>
      if 0 <=? e then x
      else
        let d := 2 ^ (- e) in
        let v := if s then - Z.pos m else Z.pos m in
        let n := (2 * v + d) / (2 * d) in
        if n =? 0 then S754_zero s else numberOfZ n
  | _ => x
  end.

(** [Math.round((end.getTime() - start.getTime()) / 1000 / 60)], each
    operation in binary64. *)
Definition durationMinutes (start end_ : JsDate) : JsNumber :=
  mathRound
    (SFdiv 53 1024
       (SFdiv 53 1024 (SFsub 53 1024 (getTime end_) (getTime start))
              (numberOfZ 1000))
       (numberOfZ 60)).

Section SearchTool.
Context {SR : StringRuntime} {DR : DateRuntime} {MT : MeetingText}.

Definition formatMeeting (m : Meeting) : FormattedMeeting :=
  {| f_recordingId := recordingId m;
     f_title := title m;
     f_meetingTitle := meetingTitle m;
     f_startedAt := toLocaleDateString (scheduledStartTime m);
     f_endedAt := toLocaleDateString (scheduledEndTime m);
     f_durationMinutes :=
       durationMinutes (scheduledStartTime m) (scheduledEndTime m);
     f_url := url m;
     f_shareUrl := shareUrl m;
     f_participants := calendarInvitees m |}.

(** The handler of [search_meetings] from the aggregate on.  Nothing in it
    throws on meetings of the shape above, so the handler's own [catch] is
    not entered. *)
Definition searchResult (args : SearchArgs) (aggregate : Aggregate)
  : ToolResult SearchContent :=
  let formattedMeetings :=
    List.map formatMeeting (filteredMeetings args (meetings aggregate)) in
  let elicitationPrompt :=
    if ENABLE_ELICITATION && negb (Nat.eqb (length formattedMeetings) 0)
    then elicitationText
    else EmptyString in
  {| text := (stringifyMeetings formattedMeetings ++ elicitationPrompt)%string;
     structuredContent :=
       Some {| sc_meetings := formattedMeetings;
               sc_count := length formattedMeetings;
               sc_elicitationPrompt :=
                 if ENABLE_ELICITATION then Some elicitationPrompt else None |};
     isError := Some (hadError aggregate) |}.

Definition search_meetings (args : SearchArgs)
  : itree fathomE (ToolResult SearchContent) :=
  aggregate <- fetchAllMeetings false false;;
  Ret (searchResult args aggregate).
End SearchTool.

(* ===================================================================== *)
(** ** The [fathom_get_transcript] tool *)
(* ===================================================================== *)

(** A JavaScript value as [JSON.parse] builds it, with [undefined] for what a
    property read may give.  An object is the list of its own properties; a
    read takes the first entry of the name. *)
Inductive JsValue : Type :=
| JsUndefined
| JsNull
| JsBoolean (b : bool)
| JsNum (x : JsNumber)
| JsStr (s : JsString)
| JsArray (elements : list JsValue)
| JsObject (properties : list (JsString * JsValue)).

(** [!!v] *)
Definition truthy (v : JsValue) : bool :=
  match v with
  | JsUndefined | JsNull => false
  | JsBoolean b => b
  | JsNum x => truthyNumber x
  | JsStr s => negb (String.eqb s EmptyString)
  | JsArray _ | JsObject _ => true
  end.

(** [typeof v === "object"] *)
Definition typeofObject (v : JsValue) : bool :=
  match v with
  | JsNull | JsArray _ | JsObject _ => true
  | _ => false
  end.

Definition nullish (v : JsValue) : bool :=
  match v with
  | JsUndefined | JsNull => true
  | _ => false
  end.

Fixpoint lookup (key : JsString) (properties : list (JsString * JsValue))
  : option JsValue :=
  match properties with
  | [] => None
  | (k, v) :: rest => if String.eqb k key then Some v else lookup key rest
  end.

(** [v.key] on a value that is neither [null] nor [undefined], for a name that
    no prototype defines and that is neither an array index nor [length];
    the names read here ([transcript], [speaker], [name], [email], [text],
    [timestamp]) are all such. *)
Definition read (key : JsString) (v : JsValue) : JsValue :=
  match v with
  | JsObject properties =>
      match lookup key properties with
      | Some x => x
      | None => JsUndefined
      end
  | _ => JsUndefined
  end.

(** [v?.key] *)
Definition optionalRead (key : JsString) (v : JsValue) : JsValue :=
  if nullish v then JsUndefined else read key v.

(** [a || b] *)
Definition orValue (a b : JsValue) : JsValue :=
  if truthy a then a else b.

(** [key in v], reached only once [typeof v === "object"] holds and [v] is
    truthy, under the same proviso on names as [read]. *)
Definition hasProperty (key : JsString) (v : JsValue) : bool :=
  match v with
  | JsObject properties =>
      match lookup key properties with
      | Some _ => true
      | None => false
      end
  | _ => false
  end.

(** [Array.isArray(v)] *)
Definition isArray (v : JsValue) : bool :=
  match v with
  | JsArray _ => true
  | _ => false
  end.

(** One entry of [formattedTranscript]. *)
Record FormattedSegment := {
  speaker : JsValue;
  speakerEmail : JsValue;
  segmentText : JsValue;
  timestamp : JsValue
}.

(** [structuredContent] of [fathom_get_transcript]. *)
Record TranscriptContent := {
  tc_recordingId : JsNumber;
  tc_transcript : list FormattedSegment;
  tc_totalSegments : nat
}.

(** A [fetch] response: [json] is what [await response.json()] delivers. *)
Record HttpResponse := {
  ok : bool;
  status : N;
  statusText : JsString;
  json : Settled JsValue
}.

(** [JSON.stringify] of the formatted transcript (indented by 2) and of a
    parsed body. *)
Class TranscriptText := {
  stringifyTranscript : list FormattedSegment -> JsString;
  stringifyValue : JsValue -> JsString
}.

(** The error a read of [key] on [null] or [undefined] throws, in V8's
    words. *)
Definition readOfNullish (key : JsString) (v : JsValue) : JsError :=
  ("TypeError: Cannot read properties of " ++
   match v with JsNull => "null" | _ => "undefined" end ++
   " (reading '" ++ key ++ "')")%string.

(** The object the callback of [transcript.map] builds. *)
Definition segmentShape (item : JsValue) : FormattedSegment :=
  {| speaker :=
       orValue (optionalRead "name" (read "speaker" item))
               (JsStr "Unknown Speaker");
     speakerEmail := optionalRead "email" (read "speaker" item);
     segmentText := read "text" item;
     timestamp := read "timestamp" item |}.

(** The callback of [transcript.map]; its first read, [item.speaker], throws
    on an [item] that is [null]. *)
Definition formatSegment (item : JsValue) : Settled FormattedSegment :=
  if nullish item then Rejected (readOfNullish "speaker" item)
  else Fulfilled (segmentShape item).

(** [items.map(callback)] for a callback that may throw: the first throw
    ends the map. *)
Fixpoint mapThrowing {A B} (f : A -> Settled B) (l : list A) : Settled (list B) :=
  match l with
  | [] => Fulfilled []
  | x :: rest =>
      match f x with
      | Rejected e => Rejected e
      | Fulfilled y =>
          match mapThrowing f rest with
          | Rejected e => Rejected e
          | Fulfilled ys => Fulfilled (y :: ys)
          end
      end
  end.

Definition decimal (n : N) : JsString :=
  NilEmpty.string_of_uint (N.to_uint n).

(** [`${new Error(message)}`] *)
Definition newError (message : JsString) : JsError :=
  ("Error: " ++ message)%string.

Section TranscriptTool.
Context {TT : TranscriptText}.

Definition transcriptSuccess (recordingId : JsNumber)
  (formattedTranscript : list FormattedSegment) : ToolResult TranscriptContent :=
  {| text := stringifyTranscript formattedTranscript;
     structuredContent :=
       Some {| tc_recordingId := recordingId;
               tc_transcript := formattedTranscript;
               tc_totalSegments := length formattedTranscript |};
     isError := None |}.

(** The [try] block of the handler from the point where [await fetch(...)]
    has settled. *)
Definition transcriptTry (recordingId : JsNumber) (fetched : Settled HttpResponse)
  : Settled (ToolResult TranscriptContent) :=
  match fetched with
  | Rejected e => Rejected e
  | Fulfilled response =>
      if negb (ok response) then
        Rejected (newError ("HTTP " ++ decimal (status response) ++ ": "
                            ++ statusText response)%string)
      else
        match json response with
        | Rejected e => Rejected e
        | Fulfilled data =>
            if truthy data && typeofObject data
               && hasProperty "transcript" data
               && isArray (read "transcript" data)
            then
              match read "transcript" data with
              | JsArray elements =>
                  match mapThrowing formatSegment elements with
                  | Rejected e => Rejected e
                  | Fulfilled formattedTranscript =>
                      Fulfilled (transcriptSuccess recordingId formattedTranscript)
                  end
              | _ => Rejected "TypeError: data.transcript.map is not a function"
              end
            else
              Fulfilled
                {| text := ("Unexpected response format: "
                            ++ stringifyValue data)%string;
                   structuredContent := None;
                   isError := Some true |}
        end
  end.

(** The handler with its [catch]. *)
Definition fathom_get_transcript (recordingId : JsNumber)
  (fetched : Settled HttpResponse) : ToolResult TranscriptContent :=
  match transcriptTry recordingId fetched with
  | Fulfilled result => result
  | Rejected error =>
      {| text := ("Error fetching transcript: " ++ error)%string;
         structuredContent := None;
         isError := Some true |}
  end.

(** *** The earlier handler, through the SDK *)

(** [key in v] in general: on a value that is not an object it throws. *)
Definition inOperator (key : JsString) (v : JsValue) : Settled bool :=
  match v with
  | JsObject _ | JsArray _ => Fulfilled (hasProperty key v)
  | _ => Rejected ("TypeError: Cannot use 'in' operator to search for '"
                   ++ key ++ "'")%string
  end.

(** The [try] block from the point where
    [await fathom.getRecordingTranscript(...)] has settled. *)
Definition sdkTranscriptTry (recordingId : JsNumber) (settled : Settled JsValue)
  : Settled (ToolResult TranscriptContent) :=
  match settled with
  | Rejected e => Rejected e
  | Fulfilled response =>
      let callback :=
        Fulfilled
          {| text := ("Transcript requested via callback. Response: "
                      ++ stringifyValue response)%string;
             structuredContent := None;
             isError := Some false |} in
      if truthy response then
        match inOperator "transcript" response with
        | Rejected e => Rejected e
        | Fulfilled false => callback
        | Fulfilled true =>
            if truthy (read "transcript" response) then
              match read "transcript" response with
              | JsArray elements =>
                  match mapThrowing formatSegment elements with
                  | Rejected e => Rejected e
                  | Fulfilled formattedTranscript =>
                      Fulfilled (transcriptSuccess recordingId formattedTranscript)
                  end
              | _ =>
                  Rejected "TypeError: response.transcript.map is not a function"
              end
            else callback
        end
      else callback
  end.

Definition sdk_fathom_get_transcript (recordingId : JsNumber)
  (settled : Settled JsValue) : ToolResult TranscriptContent :=
  match sdkTranscriptTry recordingId settled with
  | Fulfilled result => result
  | Rejected error =>
      {| text := ("Error fetching transcript: " ++ error)%string;
         structuredContent := None;
         isError := Some true |}
  end.
End TranscriptTool.


(* ===================================================================== *)
(** ** A runtime to run examples on *)
(* ===================================================================== *)

(** Lower case for ASCII and for the twenty-four Greek letters.  In UTF-8
    the Greek capitals U+0391..U+03A9 are the bytes CE 91 to CE A9 (CE A2 is
    no letter), the small letters U+03B1..U+03BF are CE B1 to CE BF and the
    small letters U+03C0..U+03C9, the final sigma U+03C2 among them, are
    CF 80 to CF 89.  A capital goes 32 code points up; a capital sigma goes
    to the final sigma when a letter stands before it and none after it. *)

Definition isAsciiLetter (c : ascii) : bool :=
  let n := N_of_ascii c in
  ((65 <=? n) && (n <=? 90) || (97 <=? n) && (n <=? 122))%N.

Definition isGreekCapital (c d : ascii) : bool :=
  let k := N_of_ascii d in
  ((N_of_ascii c =? 206) && (145 <=? k) && (k <=? 169) && negb (k =? 162))%N.

Definition isGreekSmall (c d : ascii) : bool :=
  let k := N_of_ascii d in
  ((N_of_ascii c =? 206) && (177 <=? k) && (k <=? 191) ||
   (N_of_ascii c =? 207) && (128 <=? k) && (k <=? 137))%N.

Definition isCapitalSigma (d : ascii) : bool := (N_of_ascii d =? 163)%N.

(** The small letter of the Greek capital whose second byte is [d], before
    the rest [s] of the string. *)
Definition smallGreek (d : ascii) (s : JsString) : JsString :=
  let k := N_of_ascii d in
  if (k <=? 159)%N
  then String (ascii_of_N 206) (String (ascii_of_N (k + 32)) s)
  else String (ascii_of_N 207) (String (ascii_of_N (k - 32)) s).

Definition finalSigma (s : JsString) : JsString :=
  String (ascii_of_N 207) (String (ascii_of_N 130) s).

Definition startsWithLetter (s : JsString) : bool :=
  match s with
  | String c (String d _) =>
      isAsciiLetter c || isGreekCapital c d || isGreekSmall c d
  | String c EmptyString => isAsciiLetter c
  | EmptyString => false
  end.

Fixpoint lowerGreek (afterLetter : bool) (s : JsString) : JsString :=
  match s with
  | EmptyString => EmptyString
  | String c rest =>
      let oneByte :=
        String (lowerCodeUnit c) (lowerGreek (isAsciiLetter c) rest) in
      match rest with
      | String d rest' =>
          if isGreekCapital c d then
            if isCapitalSigma d && afterLetter && negb (startsWithLetter rest')
            then finalSigma (lowerGreek true rest')
            else smallGreek d (lowerGreek true rest')
          else if isGreekSmall c d then
            String c (String d (lowerGreek true rest'))
          else oneByte
      | EmptyString => oneByte
      end
  end.

Definition lowerGreek_ascii (s : JsString) :
  forall afterLetter,
    isAscii s = true -> lowerGreek afterLetter s = lowerAscii s.
Proof.
  induction s as [|c s IH]; intros afterLetter H; [reflexivity|].
  cbn [isAscii] in H. apply andb_true_iff in H as [Hc Hs].
  cbn [lowerGreek lowerAscii]. rewrite (IH _ Hs).
  assert (Hcapital : forall d, isGreekCapital c d = false).
  { intros d. unfold isGreekCapital, isAsciiUnit in *.
    apply N.ltb_lt in Hc.
    replace (N_of_ascii c =? 206)%N with false; [reflexivity|].
    symmetry. apply N.eqb_neq. lia. }
  assert (Hsmall : forall d, isGreekSmall c d = false).
  { intros d. unfold isGreekSmall, isAsciiUnit in *.
    apply N.ltb_lt in Hc.
    replace (N_of_ascii c =? 206)%N with false
      by (symmetry; apply N.eqb_neq; lia).
    replace (N_of_ascii c =? 207)%N with false
      by (symmetry; apply N.eqb_neq; lia).
    reflexivity. }
  destruct s as [|d s]; [reflexivity|]. now rewrite Hcapital, Hsmall.
Qed.

Definition asciiAndGreek : StringRuntime :=
  {| toLowerCase := lowerGreek false;
     toLowerCase_ascii := fun s => lowerGreek_ascii s false |}.

(** The date-only form [YYYY-MM-DD] of the date-time string format, read as
    midnight UTC of that day; this parser knows no other form. *)

Definition digit (c : ascii) : option Z :=
  let n := N_of_ascii c in
  if ((48 <=? n) && (n <=? 57))%N then Some (Z.of_N (n - 48)) else None.

Definition number2 (a b : ascii) : option Z :=
  match digit a, digit b with
  | Some x, Some y => Some (10 * x + y)
  | _, _ => None
  end.

Definition number4 (a b c d : ascii) : option Z :=
  match number2 a b, number2 c d with
  | Some x, Some y => Some (100 * x + y)
  | _, _ => None
  end.

Definition isLeapYear (y : Z) : bool :=
  ((y mod 4 =? 0) && negb (y mod 100 =? 0)) || (y mod 400 =? 0).

Definition daysInMonth (y m : Z) : Z :=
  if m =? 2 then (if isLeapYear y then 29 else 28)
  else if (m =? 4) || (m =? 6) || (m =? 9) || (m =? 11) then 30
  else 31.

(** Days from 1970-01-01 to the civil date [y]-[m]-[d]. *)
Definition daysFromCivil (y m d : Z) : Z :=
  let y' := if m <=? 2 then y - 1 else y in
  let era := y' / 400 in
  let yoe := y' - era * 400 in
  let mp := if 2 <? m then m - 3 else m + 9 in
  let doy := (153 * mp + 2) / 5 + d - 1 in
  let doe := yoe * 365 + yoe / 4 - yoe / 100 + doy in
  era * 146097 + doe - 719468.

Definition parseIsoDate (s : JsString) : JsDate :=
  match s with
  | String y1 (String y2 (String y3 (String y4 (String dash1
    (String m1 (String m2 (String dash2
    (String d1 (String d2 EmptyString))))))))) =>
      if Ascii.eqb dash1 "-" && Ascii.eqb dash2 "-" then
        match number4 y1 y2 y3 y4, number2 m1 m2, number2 d1 d2 with
        | Some y, Some m, Some d =>
            if (1 <=? m) && (m <=? 12) && (1 <=? d) && (d <=? daysInMonth y m)
            then TimeClip (daysFromCivil y m d * msPerDay)
            else None
        | _, _, _ => None
        end
      else None
  | _ => None
  end.

(** ISO dates in a zone that stays [offset] milliseconds ahead of UTC. *)
Definition isoDatesAt (offset : Z) : DateRuntime :=
  {| Date_parse := parseIsoDate;
     LocalTZA := fun _ _ => offset;
     Date_parse_empty := eq_refl |}.

(** A plain rendering: the time value in decimal, and the titles of the
    meetings between brackets. *)
Definition plainDate (d : JsDate) : JsString :=
  match d with
  | Some t => NilEmpty.string_of_int (Z.to_int t)
  | None => "Invalid Date"
  end.

Definition plainMeetings (l : list FormattedMeeting) : JsString :=
  ("[" ++ String.concat ","
            (List.map (fun f => match f_title f with
                                | Some t => t
                                | None => "null"
                                end) l)
       ++ "]")%string.

Definition plainMeetingText : MeetingText :=
  {| toLocaleDateString := plainDate; stringifyMeetings := plainMeetings |}.

(** The two meetings of the specification's example. *)
Definition standup : Meeting :=
  {| recordingId := numberOfZ 1;
     title := Some "Standup";
     meetingTitle := None;
     scheduledStartTime := parseIsoDate "2024-01-02";
     scheduledEndTime := parseIsoDate "2024-01-02";
     url := None;
     shareUrl := None;
     calendarInvitees := Some [ {| name := Some "Jo"; email := None |} ] |}.

Definition planning : Meeting :=
  {| recordingId := numberOfZ 2;
     title := Some "Planning";
     meetingTitle := None;
     scheduledStartTime := parseIsoDate "2024-01-10";
     scheduledEndTime := parseIsoDate "2024-01-10";
     url := None;
     shareUrl := None;
     calendarInvitees := Some [ {| name := None; email := Some "sam@x.com" |} ] |}.

(** A meeting about a street, in capitals. *)
Definition odos : Meeting :=
  {| recordingId := numberOfZ 3;
     title := Some "ΟΔΟΣ";
     meetingTitle := None;
     scheduledStartTime := parseIsoDate "2024-01-03";
     scheduledEndTime := parseIsoDate "2024-01-03";
     url := None;
     shareUrl := None;
     calendarInvitees := None |}.

(** A meeting that is nothing but its start. *)
Definition meetingAt (start : Z) : Meeting :=
  {| recordingId := numberOfZ 0;
     title := None;
     meetingTitle := None;
     scheduledStartTime := Some start;
     scheduledEndTime := Some start;
     url := None;
     shareUrl := None;
     calendarInvitees := None |}.

Definition searchArgs (participants titles : list JsString)
  (start end_ : option JsString) : SearchArgs :=
  {| participantKeywords := Some participants;
     titleKeywords := Some titles;
     startDate := start;
     endDate := end_ |}.

(** Three answers of the service: a page with a cursor and a meeting, a page
    with a cursor and no meeting, and a last page, which repeats a meeting of
    the first. *)
Definition page1 : ListMeetingsResult :=
  {| items := [standup]; nextCursor := Some "c1" |}.

Definition page2 : ListMeetingsResult :=
  {| items := []; nextCursor := Some "c2" |}.

Definition page3 : ListMeetingsResult :=
  {| items := [planning; standup]; nextCursor := None |}.

(** A page whose cursor is the empty string. *)
Definition pageEmptyCursor : ListMeetingsResult :=
  {| items := [planning]; nextCursor := Some EmptyString |}.

Definition metadataRequest (c : JsCursor) : ListMeetingsRequest :=
  {| cursor := c; includeSummary := false; includeTranscript := false |}.

(** A transcript of two segments, the second without a speaker name, and a
    body that is no transcript. *)
Definition segment1 : JsValue :=
  JsObject [("speaker", JsObject [("name", JsStr "Jo");
                                  ("email", JsStr "jo@x.com")]);
            ("text", JsStr "Hello");
            ("timestamp", JsStr "00:00:01")].

Definition segment2 : JsValue :=
  JsObject [("speaker", JsObject [("email", JsNull)]);
            ("text", JsStr "Hi");
            ("timestamp", JsStr "00:00:05")].

Definition okResponse (data : JsValue) : HttpResponse :=
  {| ok := true; status := 200%N; statusText := "OK"; json := Fulfilled data |}.

Definition transcriptBody : JsValue :=
  JsObject [("transcript", JsArray [segment1; segment2])].

Definition otherBody : JsValue :=
  JsObject [("error", JsStr "not found")].

Definition plainTranscriptText : TranscriptText :=
  {| stringifyTranscript := fun l => decimal (N.of_nat (length l));
     stringifyValue := fun v => if typeofObject v then "{...}" else "..." |}.


(* ===================================================================== *)
(** ** What the specification says, in its own words *)
(* ===================================================================== *)

(** Two characters that are one letter when case is ignored: the same
    character, or one of the capitals A to Z and its small letter. *)
Definition sameLetter (a b : ascii) : Prop :=
  a = b \/
  exists k : N,
    (k < 26)%N /\
    ((N_of_ascii a = 65 + k /\ N_of_ascii b = 97 + k) \/
     (N_of_ascii a = 97 + k /\ N_of_ascii b = 65 + k))%N.

(** Two strings that are the same when case is ignored, letter by letter. *)
Inductive sameIgnoringCase : JsString -> JsString -> Prop :=
| same_empty : sameIgnoringCase EmptyString EmptyString
| same_letter (a b : ascii) (s t : JsString) :
    sameLetter a b -> sameIgnoringCase s t ->
    sameIgnoringCase (String a s) (String b t).

(** [kw] occurs in [field] when case is ignored: some stretch of [field] is
    [kw], case ignored. *)
Definition occursIgnoringCase (kw field : JsString) : Prop :=
  exists before stretch after,
    field = (before ++ stretch ++ after)%string /\
    sameIgnoringCase stretch kw.

(** [kw] occurs in [field] once the runtime has put both in lower case. *)
Definition occursInLowerCase {SR : StringRuntime} (kw field : JsString) : Prop :=
  exists before after,
    toLowerCase field = (before ++ toLowerCase kw ++ after)%string.

(** The fields of a meeting that keywords are looked for in: the name and the
    email of every participant, and the two titles. *)
Definition searchedField (m : Meeting) (field : JsString) : Prop :=
  (exists invitees invitee,
      calendarInvitees m = Some invitees /\ In invitee invitees /\
      (name invitee = Some field \/ email invitee = Some field)) \/
  title m = Some field \/
  meetingTitle m = Some field.

(** The keyword criterion: any keyword of the merged set, in any field. *)
Definition keywordCriterion (args : SearchArgs) (m : Meeting) : Prop :=
  exists kw field,
    (In kw (orEmpty (participantKeywords args)) \/
     In kw (orEmpty (titleKeywords args))) /\
    searchedField m field /\
    occursIgnoringCase kw field.

(** The same with the occurrence the runtime's lower case gives. *)
Definition lowerCaseKeywordCriterion {SR : StringRuntime}
  (args : SearchArgs) (m : Meeting) : Prop :=
  exists kw field,
    (In kw (orEmpty (participantKeywords args)) \/
     In kw (orEmpty (titleKeywords args))) /\
    searchedField m field /\
    occursInLowerCase kw field.

(** At least one keyword is supplied. *)
Definition keywordSupplied (args : SearchArgs) : Prop :=
  exists kw,
    In kw (orEmpty (participantKeywords args)) \/
    In kw (orEmpty (titleKeywords args)).

(** The keywords of the search and the searched fields of the meeting are
    ASCII text. *)
Definition asciiText (args : SearchArgs) (m : Meeting) : Prop :=
  (forall kw,
      In kw (orEmpty (participantKeywords args)) \/
      In kw (orEmpty (titleKeywords args)) ->
      isAscii kw = true) /\
  (forall field, searchedField m field -> isAscii field = true).

(** A parsed body that is an object containing a transcript array. *)
Definition isTranscriptBody (data : JsValue) (segments : list JsValue) : Prop :=
  exists properties,
    data = JsObject properties /\
    lookup "transcript" properties = Some (JsArray segments).

(** The fetch delivered a body that is an object containing a transcript
    array. *)
Definition hasTranscriptBody (fetched : Settled HttpResponse) : Prop :=
  exists response data segments,
    fetched = Fulfilled response /\
    json response = Fulfilled data /\
    isTranscriptBody data segments.


(** A page that arrived and hands out a cursor to go on with: a string that
    is not empty.  Its items play no part. *)
Definition handsOutCursor (p : Page) : Prop :=
  exists result next,
    p = Fulfilled result /\ nextCursor result = Some next /\
    next <> EmptyString.

(** A page that ends the pagination: the request for it failed, or it arrived
    without a cursor to go on with, which is no cursor at all or the empty
    string.  [failed] tells the two apart. *)
Definition endsPagination (p : Page) (failed : bool) : Prop :=
  (exists error, p = Rejected error /\ failed = true) \/
  (exists result,
      p = Fulfilled result /\
      (nextCursor result = None \/ nextCursor result = Some EmptyString) /\
      failed = false).

(** A property of every request a tool may ever send, however long it runs
    and whatever it is answered: the greatest predicate on trees that holds of
    a tree when its next request has the property and so has, for every
    answer, what follows. *)
Variant everyRequestF (P : ListMeetingsRequest -> Prop) {R : Type}
  (rec : itree fathomE R -> Prop) : itree' fathomE R -> Prop :=
| every_ret (r : R) : everyRequestF P rec (RetF r)
| every_tau (t : itree fathomE R) : rec t -> everyRequestF P rec (TauF t)
| every_vis (request : ListMeetingsRequest) (k : Page -> itree fathomE R) :
    P request -> (forall page, rec (k page)) ->
    everyRequestF P rec (VisF (ListMeetings request) k).

Definition everyRequest_ (P : ListMeetingsRequest -> Prop) {R : Type}
  (rec : itree fathomE R -> Prop) (t : itree fathomE R) : Prop :=
  everyRequestF P rec (observe t).

Definition everyRequest (P : ListMeetingsRequest -> Prop) {R : Type}
  (t : itree fathomE R) : Prop :=
  paco1 (everyRequest_ P) bot1 t.

Definition metadataOnly (request : ListMeetingsRequest) : Prop :=
  includeSummary request = false /\ includeTranscript request = false.

(** The request a tree starts with, if it starts with one. *)
Definition firstRequest {R : Type} (ot : itree' fathomE R)
  : option ListMeetingsRequest :=
  match ot with
  | VisF e _ => match e with ListMeetings request => Some request end
  | _ => None
  end.

(** From [u] to [u'] the service has received requests with the property
    [P], and nothing else. *)
Definition onlyAdds (P : ListMeetingsRequest -> Prop) (u u' : Upstream) : Prop :=
  exists new, received u' = received u ++ new /\ Forall P new.

(* ===================================================================== *)
(** ** More of the code: the earlier [filter_all_meetings] tool *)
(* ===================================================================== *)

(** The [args] of [filter_all_meetings].  The schema gives the two flags
    defaults ([true] for summaries, [false] for transcripts), so the handler
    always finds them set. *)
Record FilterAllArgs := {
  fa_participantKeywords : option (list JsString);
  fa_titleKeywords : option (list JsString);
  fa_includeSummary : bool;
  fa_includeTranscript : bool
}.

(** [[...(args.participantKeywords || []), ...(args.titleKeywords || [])]] *)
Definition filterAllKeywords (args : FilterAllArgs) : list JsString :=
  orEmpty (fa_participantKeywords args) ++ orEmpty (fa_titleKeywords args).

(** The callback of [allMeetings.filter] in [filter_all_meetings]; the
    callback of its [allKeywords.some] is, statement for statement, the one
    of [search_meetings]. *)
Definition filterAllFilter {SR : StringRuntime} (args : FilterAllArgs)
  (meeting : Meeting) : bool :=
  let allKeywords := filterAllKeywords args in
  if Nat.eqb (length allKeywords) 0 then true
  else
    let hasMatch := existsb (keywordHits meeting) allKeywords in
    hasMatch.

(** The handler of [filter_all_meetings] as far as [filteredMeetings] and the
    error flag it reports. *)
Definition filterAllSelection {SR : StringRuntime} (args : FilterAllArgs)
  : itree fathomE (list Meeting * bool) :=
  aggregate <- fetchAllMeetings (fa_includeSummary args)
                                (fa_includeTranscript args);;
  Ret (filter (filterAllFilter args) (meetings aggregate), hadError aggregate).

(** The arguments of [search_meetings] that ask for the same keywords and no
    date. *)
Definition searchArgsOf (args : FilterAllArgs) : SearchArgs :=
  {| participantKeywords := fa_participantKeywords args;
     titleKeywords := fa_titleKeywords args;
     startDate := None;
     endDate := None |}.

(** The request flags that are the ones of [args]. *)
Definition flagsOf (args : FilterAllArgs) (request : ListMeetingsRequest) : Prop :=
  includeSummary request = fa_includeSummary args /\
  includeTranscript request = fa_includeTranscript args.

(* ===================================================================== *)
(** ** More ways to say what the filter does *)
(* ===================================================================== *)

(** The same arguments with the two keyword lists exchanged. *)
Definition swapKeywords (args : SearchArgs) : SearchArgs :=
  {| participantKeywords := titleKeywords args;
     titleKeywords := participantKeywords args;
     startDate := startDate args;
     endDate := endDate args |}.

(** A meeting has something to search in. *)
Definition hasSearchedField (m : Meeting) : Prop :=
  exists field, searchedField m field.

Section DateWords.
Context {DR : DateRuntime}.

(** The date criterion in words: a start date that is given (a non-empty
    string) asks for a valid scheduled start at or after the valid start of
    its day, an end date for one at or before the valid end of its day. *)
Definition dateCriterion (args : SearchArgs) (m : Meeting) : Prop :=
  (forall s, truthyString (startDate args) = Some s ->
             exists ts b, scheduledStartTime m = Some ts /\
                          startOfDay s = Some b /\ b <= ts) /\
  (forall s, truthyString (endDate args) = Some s ->
             exists ts b, scheduledStartTime m = Some ts /\
                          endOfDay s = Some b /\ ts <= b).

(** The zone keeps one offset from UTC. *)
Definition fixedOffset (offset : Z) : Prop :=
  forall t isUTC, LocalTZA t isUTC = offset.
End DateWords.

(** A transcript that the handler can format: every segment can be read
    from. *)
Definition readableSegments (segments : list JsValue) : Prop :=
  Forall (fun segment => nullish segment = false) segments.

(* ===================================================================== *)
(** ** Strings: lower case and inclusion *)
(* ===================================================================== *)

Lemma append_empty_r (s : JsString) : (s ++ EmptyString)%string = s.
Proof.
  induction s as [|c s IH]; cbn; [reflexivity | now rewrite IH].
Qed.

Lemma lowerAscii_app (a b : JsString) :
  lowerAscii (a ++ b)%string = (lowerAscii a ++ lowerAscii b)%string.
Proof.
  induction a as [|c a IH]; cbn; [reflexivity | now rewrite IH].
Qed.

(** A split of the lower-case string comes from a split of the string. *)
Lemma lowerAscii_split (s : JsString) : forall a b : JsString,
  lowerAscii s = (a ++ b)%string ->
  exists a' b', s = (a' ++ b')%string /\
                lowerAscii a' = a /\ lowerAscii b' = b.
Proof.
  induction s as [|c s IH]; intros a b H.
  - destruct a; cbn in H; [|discriminate].
    exists EmptyString, EmptyString. cbn. auto.
  - destruct a as [|d a]; cbn in H.
    + exists EmptyString, (String c s). cbn. auto.
    + injection H as Hd Hs. destruct (IH _ _ Hs) as (a' & b' & -> & <- & <-).
      exists (String c a'), b'. cbn. rewrite Hd. auto.
Qed.

Lemma prefix_iff (p s : JsString) :
  String.prefix p s = true <-> exists rest, s = (p ++ rest)%string.
Proof.
  revert s. induction p as [|c p IH]; intros s.
  - split; [intros _; now exists s | intros _; now destruct s].
  - destruct s as [|d s]; cbn.
    + split; [discriminate | intros [rest H]; discriminate].
    + destruct (Ascii.ascii_dec c d) as [->|Hne].
      * rewrite IH. split; intros [rest H]; exists rest.
        -- now rewrite H.
        -- now injection H.
      * split; [discriminate | intros [rest H]; injection H; congruence].
Qed.

(** [includes] finds exactly the strings that occur somewhere. *)
Lemma includes_iff (s kw : JsString) :
  includes s kw = true <->
  exists before after, s = (before ++ kw ++ after)%string.
Proof.
  induction s as [|c s IH]; cbn [includes].
  - rewrite orb_false_r, prefix_iff. split.
    + intros [rest H]. now exists EmptyString, rest.
    + intros (before & after & H). destruct before; cbn in H.
      * now exists after.
      * discriminate.
  - rewrite orb_true_iff, prefix_iff, IH. split.
    + intros [[rest H] | (before & after & H)].
      * now exists EmptyString, rest.
      * exists (String c before), after. cbn. now rewrite H.
    + intros (before & after & H). destruct before as [|d before]; cbn in H.
      * left. now exists after.
      * right. injection H as _ H. now exists before, after.
Qed.

(** *** Letters *)

Lemma capital_cases (c : ascii) :
  ((65 <= N_of_ascii c <= 90)%N /\
   lowerCodeUnit c = ascii_of_N (N_of_ascii c + 32)) \/
  (~ (65 <= N_of_ascii c <= 90)%N /\ lowerCodeUnit c = c).
Proof.
  unfold lowerCodeUnit. cbv zeta.
  destruct (N.leb_spec 65 (N_of_ascii c)), (N.leb_spec (N_of_ascii c) 90);
    cbn; [left | right | right | right]; split; auto; lia.
Qed.

Lemma ascii_of_N_inj (n m : N) :
  (n < 256)%N -> (m < 256)%N -> ascii_of_N n = ascii_of_N m -> n = m.
Proof.
  intros Hn Hm H. apply (f_equal N_of_ascii) in H.
  now rewrite !N_ascii_embedding in H.
Qed.

Lemma N_of_ascii_inj (a b : ascii) : N_of_ascii a = N_of_ascii b -> a = b.
Proof.
  intros H. apply (f_equal ascii_of_N) in H.
  now rewrite !ascii_N_embedding in H.
Qed.

(** Two characters have one lower case exactly when they are one letter. *)
Lemma lowerCodeUnit_iff (a b : ascii) :
  lowerCodeUnit a = lowerCodeUnit b <-> sameLetter a b.
Proof.
  pose proof (N_ascii_bounded a) as Ba. pose proof (N_ascii_bounded b) as Bb.
  split.
  - intros H.
    destruct (capital_cases a) as [[Ha Ea] | [Ha Ea]],
             (capital_cases b) as [[Hb Eb] | [Hb Eb]];
      rewrite Ea, Eb in H.
    + left. apply N_of_ascii_inj. apply ascii_of_N_inj in H; lia.
    + right. exists (N_of_ascii a - 65)%N. split; [lia|]. left.
      apply (f_equal N_of_ascii) in H.
      rewrite N_ascii_embedding in H by lia. lia.
    + right. exists (N_of_ascii b - 65)%N. split; [lia|]. right.
      apply (f_equal N_of_ascii) in H.
      rewrite N_ascii_embedding in H by lia. lia.
    + now left.
  - intros [-> | (k & Hk & [[Ea Eb] | [Ea Eb]])]; [reflexivity| |].
    + destruct (capital_cases a) as [[Ha Ea'] | [Ha _]]; [|lia].
      destruct (capital_cases b) as [[Hb _] | [_ Eb']]; [lia|].
      rewrite Ea', Eb'. rewrite <- (ascii_N_embedding b). f_equal. lia.
    + destruct (capital_cases b) as [[Hb Eb'] | [Hb _]]; [|lia].
      destruct (capital_cases a) as [[Ha _] | [_ Ea']]; [lia|].
      rewrite Ea', Eb'. rewrite <- (ascii_N_embedding a) at 1. f_equal. lia.
Qed.

Lemma lowerAscii_iff (s : JsString) : forall t,
  lowerAscii s = lowerAscii t <-> sameIgnoringCase s t.
Proof.
  induction s as [|a s IH]; intros [|b t]; cbn.
  - split; [constructor | reflexivity].
  - split; [discriminate | inversion 1].
  - split; [discriminate | inversion 1].
  - split.
    + intros [= Hc Hs].
      constructor; [now apply lowerCodeUnit_iff | now apply IH].
    + inversion 1 as [|? ? ? ? Hc Hs]; subst. f_equal.
      * now apply lowerCodeUnit_iff.
      * now apply IH.
Qed.

(** On ASCII text, what [includes] finds between lower-case strings is what
    the specification calls an occurrence that ignores case. *)
Lemma lowerAscii_occurs_iff (kw field : JsString) :
  (exists before after,
      lowerAscii field = (before ++ lowerAscii kw ++ after)%string) <->
  occursIgnoringCase kw field.
Proof.
  unfold occursIgnoringCase. split.
  - intros (a & b & H).
    destruct (lowerAscii_split _ _ _ H) as (a' & r & -> & _ & Hr).
    destruct (lowerAscii_split _ _ _ Hr) as (m' & b' & -> & Hm & _).
    exists a', m', b'. split; [reflexivity | now apply lowerAscii_iff].
  - intros (a & m & b & -> & Hm). apply lowerAscii_iff in Hm.
    exists (lowerAscii a), (lowerAscii b).
    now rewrite !lowerAscii_app, Hm.
Qed.

(* ===================================================================== *)
(** ** The filter *)
(* ===================================================================== *)

Lemma truthy_orElse (a b : option bool) :
  truthyOptBool (orElse a b) = truthyOptBool a || truthyOptBool b.
Proof.
  unfold orElse. destruct a as [[|]|]; reflexivity.
Qed.

Lemma keywordSupplied_iff (args : SearchArgs) :
  keywordSupplied args <-> allKeywords args <> [].
Proof.
  unfold keywordSupplied, allKeywords. split.
  - intros [kw H] E. apply in_or_app in H. rewrite E in H. exact H.
  - intros H. destruct (_ ++ _) as [|kw l] eqn:E; [congruence|].
    exists kw. apply in_app_or. rewrite E. now left.
Qed.

Section KeywordFacts.
Context {SR : StringRuntime}.

Lemma toLowerCase_empty : toLowerCase EmptyString = EmptyString.
Proof. now rewrite toLowerCase_ascii. Qed.

(** The empty keyword occurs in every field. *)
Lemma empty_occursInLowerCase (field : JsString) :
  occursInLowerCase EmptyString field.
Proof.
  exists EmptyString, (toLowerCase field). now rewrite toLowerCase_empty.
Qed.

(** On ASCII text the runtime's lower case finds the occurrences that ignore
    case. *)
Lemma occursInLowerCase_ascii (kw field : JsString) :
  isAscii kw = true -> isAscii field = true ->
  (occursInLowerCase kw field <-> occursIgnoringCase kw field).
Proof.
  intros Hkw Hfield. unfold occursInLowerCase.
  rewrite (toLowerCase_ascii kw Hkw), (toLowerCase_ascii field Hfield).
  apply lowerAscii_occurs_iff.
Qed.

Lemma optLowerIncludes_iff (x : option JsString) (kw : JsString) :
  truthyOptBool (optLowerIncludes x (toLowerCase kw)) = true <->
  exists field, x = Some field /\ occursInLowerCase kw field.
Proof.
  destruct x as [s|]; cbn.
  - rewrite includes_iff. split.
    + intros H. now exists s.
    + intros (field & [= ->] & H). exact H.
  - split; [discriminate | intros (field & [=] & _)].
Qed.

Lemma inviteeHas_iff (kw : JsString) (invitee : Invitee) :
  inviteeHas (toLowerCase kw) invitee = true <->
  exists field,
    (name invitee = Some field \/ email invitee = Some field) /\
    occursInLowerCase kw field.
Proof.
  unfold inviteeHas.
  rewrite truthy_orElse, orb_true_iff, !optLowerIncludes_iff.
  split.
  - intros [(f & H & Ho) | (f & H & Ho)]; exists f; auto.
  - intros (f & [H | H] & Ho); [left | right]; exists f; auto.
Qed.

(** One keyword hits a meeting exactly when, in lower case, it occurs in one
    of the searched fields in lower case. *)
Lemma keywordHits_iff (m : Meeting) (kw : JsString) :
  keywordHits m kw = true <->
  exists field, searchedField m field /\ occursInLowerCase kw field.
Proof.
  unfold keywordHits, foundInTitle, foundInParticipants, searchedField.
  rewrite !truthy_orElse, !orb_true_iff, !optLowerIncludes_iff.
  split.
  - intros [H | [(f & H & Ho) | (f & H & Ho)]].
    + destruct (calendarInvitees m) as [invitees|]; cbn in H; [|discriminate].
      apply existsb_exists in H as (invitee & Hin & H).
      apply inviteeHas_iff in H as (f & Hf & Ho).
      exists f. split; [left; now exists invitees, invitee | exact Ho].
    + exists f. auto.
    + exists f. auto.
  - intros (f & [(invitees & invitee & Hc & Hin & Hf) | [H | H]] & Ho).
    + left. rewrite Hc. cbn. apply existsb_exists. exists invitee.
      split; [exact Hin | apply inviteeHas_iff; now exists f].
    + right. left. now exists f.
    + right. right. now exists f.
Qed.

Lemma keywordMatch_iff (args : SearchArgs) (m : Meeting) :
  allKeywords args <> [] ->
  (keywordMatch args m = true <-> lowerCaseKeywordCriterion args m).
Proof.
  intros Hne. unfold keywordMatch, lowerCaseKeywordCriterion.
  destruct (allKeywords args) as [|k ks] eqn:E; [congruence|].
  rewrite existsb_exists. unfold allKeywords in E. split.
  - intros (kw & Hin & H). rewrite <- E in Hin. apply in_app_or in Hin.
    apply keywordHits_iff in H as (f & Hf & Ho). now exists kw, f.
  - intros (kw & f & Hin & Hf & Ho). exists kw. split.
    + rewrite <- E. now apply in_or_app.
    + apply keywordHits_iff. now exists f.
Qed.

(** On ASCII text the two keyword criteria are one. *)
Lemma keywordCriterion_ascii (args : SearchArgs) (m : Meeting) :
  asciiText args m ->
  (lowerCaseKeywordCriterion args m <-> keywordCriterion args m).
Proof.
  intros [Hkw Hfield]. unfold lowerCaseKeywordCriterion, keywordCriterion.
  split; intros (kw & field & Hin & Hf & Ho); exists kw, field;
    (split; [exact Hin|]); (split; [exact Hf|]);
    now apply (occursInLowerCase_ascii kw field (Hkw kw Hin) (Hfield field Hf)).
Qed.

Lemma keywordMatch_none (args : SearchArgs) (m : Meeting) :
  allKeywords args = [] -> keywordMatch args m = true.
Proof.
  intros H. unfold keywordMatch. now rewrite H.
Qed.
End KeywordFacts.

Lemma setHours_invalid `{DateRuntime} (hour min sec ms : Z) :
  setHours None hour min sec ms = None.
Proof. reflexivity. Qed.

Lemma dateGe_invalid (d : JsDate) : dateGe d None = false.
Proof. now destruct d. Qed.

Lemma dateLe_invalid (d : JsDate) : dateLe d None = false.
Proof. now destruct d. Qed.

Section FilterFacts.
Context {SR : StringRuntime} {DR : DateRuntime}.

Lemma dateMatch_bounds (args : SearchArgs) (m : Meeting) :
  dateMatch args m = startMatch args m && endMatch args m.
Proof.
  unfold dateMatch, startMatch, endMatch.
  destruct (truthyString (startDate args)), (truthyString (endDate args));
    cbn; try reflexivity.
  now rewrite andb_true_r.
Qed.

Lemma truthyString_valid (x : option JsString) (s : JsString) (t : Z) :
  x = Some s -> Date_parse s = Some t -> truthyString x = Some s.
Proof.
  intros -> Hp. cbn. destruct (String.eqb_spec s EmptyString) as [->|]; [|reflexivity].
  rewrite Date_parse_empty in Hp. discriminate.
Qed.

Lemma truthyString_some (x : option JsString) (s : JsString) :
  truthyString x = Some s -> x = Some s /\ s <> EmptyString.
Proof.
  destruct x as [s'|]; cbn; [|discriminate].
  destruct (String.eqb_spec s' EmptyString); [discriminate|].
  intros [= ->]. auto.
Qed.

Lemma truthyString_nonempty (s : JsString) :
  s <> EmptyString -> truthyString (Some s) = Some s.
Proof.
  intros H. cbn. now destruct (String.eqb_spec s EmptyString).
Qed.

Lemma setHours_valid (t hour min sec ms b : Z) :
  setHours (Some t) hour min sec ms = Some b ->
  b = UTC (MakeDate (Day (LocalTime t)) (MakeTime hour min sec ms)).
Proof.
  cbn. unfold TimeClip. destruct (_ <=? _); [now intros [= <-] | discriminate].
Qed.

(** Where the zone is steady, the instant found is the wanted time of the
    same local day. *)
Lemma local_time_of_day (t time : Z) :
  0 <= time < msPerDay ->
  zoneSteadyAt (MakeDate (Day (LocalTime t)) time) ->
  Day (LocalTime (UTC (MakeDate (Day (LocalTime t)) time))) = Day (LocalTime t) /\
  TimeWithinDay (LocalTime (UTC (MakeDate (Day (LocalTime t)) time))) = time.
Proof.
  intros Htime Hz. unfold zoneSteadyAt in Hz.
  set (d := Day (LocalTime t)) in *.
  assert (HL : LocalTime (UTC (MakeDate d time)) = MakeDate d time).
  { unfold LocalTime. rewrite Hz. unfold UTC. lia. }
  rewrite HL. clearbody d. unfold MakeDate, Day, TimeWithinDay.
  assert (Hpos : 0 < msPerDay) by reflexivity. split.
  - symmetry. apply Z.div_unique with (r := time); lia.
  - symmetry. apply Z.mod_unique with (q := d); lia.
Qed.

Lemma dateMatch_dates (a b : SearchArgs) (m : Meeting) :
  startDate a = startDate b -> endDate a = endDate b ->
  dateMatch a m = dateMatch b m.
Proof.
  intros Hs He. unfold dateMatch. now rewrite Hs, He.
Qed.

Lemma dateMatch_iff (args : SearchArgs) (m : Meeting) :
  dateMatch args m = true <-> dateCriterion args m.
Proof.
  rewrite dateMatch_bounds, andb_true_iff.
  unfold startMatch, endMatch, dateCriterion.
  assert (Hge : forall d s, dateGe d (startOfDay s) = true <->
                            exists ts b, d = Some ts /\
                                         startOfDay s = Some b /\ b <= ts).
  { intros d s. destruct d as [ts|], (startOfDay s) as [b|]; cbn.
    - rewrite Z.leb_le. split.
      + intros H. now exists ts, b.
      + intros (ts' & b' & [= <-] & [= <-] & H). exact H.
    - split; [discriminate | intros (? & ? & _ & [=] & _)].
    - split; [discriminate | intros (? & ? & [=] & _)].
    - split; [discriminate | intros (? & ? & [=] & _)]. }
  assert (Hle : forall d s, dateLe d (endOfDay s) = true <->
                            exists ts b, d = Some ts /\
                                         endOfDay s = Some b /\ ts <= b).
  { intros d s. destruct d as [ts|], (endOfDay s) as [b|]; cbn.
    - rewrite Z.leb_le. split.
      + intros H. now exists ts, b.
      + intros (ts' & b' & [= <-] & [= <-] & H). exact H.
    - split; [discriminate | intros (? & ? & _ & [=] & _)].
    - split; [discriminate | intros (? & ? & [=] & _)].
    - split; [discriminate | intros (? & ? & [=] & _)]. }
  split.
  - intros [H1 H2]. split; intros s Hs; rewrite Hs in *.
    + now apply Hge.
    + now apply Hle.
  - intros [H1 H2]. split.
    + destruct (truthyString (startDate args)) as [s|]; [|reflexivity].
      apply Hge. now apply H1.
    + destruct (truthyString (endDate args)) as [s|]; [|reflexivity].
      apply Hle. now apply H2.
Qed.

Lemma first_millisecond : 0 <= MakeTime 0 0 0 0 < msPerDay.
Proof. split; [discriminate | reflexivity]. Qed.

Lemma last_millisecond : 0 <= MakeTime 23 59 59 999 < msPerDay.
Proof. split; [discriminate | reflexivity]. Qed.
End FilterFacts.

Section FilterTheorems.
Context {SR : StringRuntime} {DR : DateRuntime}.

Lemma searchFilter_parts (args : SearchArgs) (m : Meeting) :
  searchFilter args m =
  keywordMatch args m && (startMatch args m && endMatch args m).
Proof.
  unfold searchFilter. now rewrite dateMatch_bounds.
Qed.

Lemma searchFilter_withoutStart (args : SearchArgs) (m : Meeting) :
  startMatch args m = true ->
  searchFilter args m = searchFilter (withoutStart args) m.
Proof.
  intros H. rewrite !searchFilter_parts, H. reflexivity.
Qed.

Lemma searchFilter_withoutEnd (args : SearchArgs) (m : Meeting) :
  endMatch args m = true ->
  searchFilter args m = searchFilter (withoutEnd args) m.
Proof.
  intros H. rewrite !searchFilter_parts, H.
  unfold keywordMatch, allKeywords, startMatch, endMatch. cbn.
  now rewrite !andb_true_r.
Qed.

(** C3, as the code has it.  With at least one keyword supplied, a record
    passes the filter if and only if some keyword of the merged participant
    and title keywords, put in lower case by the runtime, occurs in the lower
    case of a participant's name or email or of one of the two titles, and
    the record meets the date criterion.  Where the keywords and these fields
    are ASCII text that is to say: some keyword occurs in one of the fields
    when case is ignored.  Keywords and fields are alternatives; only the
    keyword criterion and the date criterion are both required. *)
Theorem search_filter_keywords_or_fields (args : SearchArgs) (m : Meeting) :
  keywordSupplied args ->
  (searchFilter args m = true <->
   lowerCaseKeywordCriterion args m /\ dateCriterion args m) /\
  (asciiText args m ->
   (searchFilter args m = true <->
    keywordCriterion args m /\ dateCriterion args m)).
Proof.
  intros Hne. apply keywordSupplied_iff in Hne.
  assert (H : searchFilter args m = true <->
              lowerCaseKeywordCriterion args m /\ dateCriterion args m).
  { unfold searchFilter.
    now rewrite andb_true_iff, (keywordMatch_iff args m Hne), dateMatch_iff. }
  split; [exact H|].
  intros Hascii. now rewrite H, (keywordCriterion_ascii args m Hascii).
Qed.

(** C5.  With no keyword and neither date supplied the filter returns the
    collection it was given. *)
Theorem search_filter_identity_without_criteria
  (args : SearchArgs) (allMeetings : list Meeting) :
  allKeywords args = [] -> startDate args = None -> endDate args = None ->
  filteredMeetings args allMeetings = allMeetings.
Proof.
  intros Hk Hs He. unfold filteredMeetings.
  induction allMeetings as [|m rest IH]; cbn [filter]; [reflexivity|].
  rewrite IH. unfold searchFilter, dateMatch.
  rewrite (keywordMatch_none args m Hk), Hs, He. reflexivity.
Qed.

(** X18.  A start date that parses is replaced by the first millisecond,
    00:00:00.000, of the local calendar day its instant falls on, and a
    record is kept only if its scheduled start is at or after that instant:
    at the instant itself the start date excludes nothing, one millisecond
    earlier the record is dropped.  An end date is replaced by the last
    millisecond, 23:59:59.999, of its day and compared with at-or-before. *)
Theorem date_bounds_inclusive (args : SearchArgs) (m : Meeting) :
  (forall s t b,
      startDate args = Some s -> Date_parse s = Some t ->
      startOfDay s = Some b ->
      b = UTC (MakeDate (Day (LocalTime t)) (MakeTime 0 0 0 0)) /\
      (zoneSteadyAt (MakeDate (Day (LocalTime t)) (MakeTime 0 0 0 0)) ->
       Day (LocalTime b) = Day (LocalTime t) /\
       TimeWithinDay (LocalTime b) = MakeTime 0 0 0 0) /\
      (searchFilter args m = true ->
       exists ts, scheduledStartTime m = Some ts /\ b <= ts) /\
      (scheduledStartTime m = Some b ->
       searchFilter args m = searchFilter (withoutStart args) m) /\
      (scheduledStartTime m = Some (b - 1) -> searchFilter args m = false))
  /\
  (forall s t b,
      endDate args = Some s -> Date_parse s = Some t ->
      endOfDay s = Some b ->
      b = UTC (MakeDate (Day (LocalTime t)) (MakeTime 23 59 59 999)) /\
      (zoneSteadyAt (MakeDate (Day (LocalTime t)) (MakeTime 23 59 59 999)) ->
       Day (LocalTime b) = Day (LocalTime t) /\
       TimeWithinDay (LocalTime b) = MakeTime 23 59 59 999) /\
      (searchFilter args m = true ->
       exists ts, scheduledStartTime m = Some ts /\ ts <= b) /\
      (scheduledStartTime m = Some b ->
       searchFilter args m = searchFilter (withoutEnd args) m) /\
      (scheduledStartTime m = Some (b + 1) -> searchFilter args m = false)).
Proof.
  split; intros s t b Hs Hp Hb.
  - pose proof (truthyString_valid _ _ _ Hs Hp) as Ht.
    assert (Hm : startMatch args m = dateGe (scheduledStartTime m) (Some b)).
    { unfold startMatch. now rewrite Ht, Hb. }
    unfold startOfDay in Hb. rewrite Hp in Hb.
    apply setHours_valid in Hb.
    split; [exact Hb|]. split; [|split; [|split]].
    + intros Hz. rewrite Hb.
      exact (local_time_of_day t _ first_millisecond Hz).
    + intros Hf. rewrite searchFilter_parts, !andb_true_iff, Hm in Hf.
      destruct Hf as (_ & Hge & _).
      destruct (scheduledStartTime m) as [ts|]; [|discriminate].
      exists ts. split; [reflexivity | now apply Z.leb_le].
    + intros Hat. apply searchFilter_withoutStart.
      rewrite Hm, Hat. cbn. apply Z.leb_refl.
    + intros Hat. rewrite searchFilter_parts, Hm, Hat. cbn.
      replace (b <=? b - 1) with false by (symmetry; apply Z.leb_gt; lia).
      now rewrite andb_false_r.
  - pose proof (truthyString_valid _ _ _ Hs Hp) as Ht.
    assert (Hm : endMatch args m = dateLe (scheduledStartTime m) (Some b)).
    { unfold endMatch. now rewrite Ht, Hb. }
    unfold endOfDay in Hb. rewrite Hp in Hb.
    apply setHours_valid in Hb.
    split; [exact Hb|]. split; [|split; [|split]].
    + intros Hz. rewrite Hb.
      exact (local_time_of_day t _ last_millisecond Hz).
    + intros Hf. rewrite searchFilter_parts, !andb_true_iff, Hm in Hf.
      destruct Hf as (_ & _ & Hle).
      destruct (scheduledStartTime m) as [ts|]; [|discriminate].
      exists ts. split; [reflexivity | now apply Z.leb_le].
    + intros Hat. apply searchFilter_withoutEnd.
      rewrite Hm, Hat. cbn. apply Z.leb_refl.
    + intros Hat. rewrite searchFilter_parts, Hm, Hat. cbn.
      replace (b + 1 <=? b) with false by (symmetry; apply Z.leb_gt; lia).
      now rewrite !andb_false_r.
Qed.
End FilterTheorems.

Section SearchTheorems.
Context {SR : StringRuntime} {DR : DateRuntime} {MT : MeetingText}.

Lemma startMatch_unparseable (args : SearchArgs) (s : JsString) (m : Meeting) :
  startDate args = Some s -> s <> EmptyString -> Date_parse s = None ->
  startMatch args m = false.
Proof.
  intros Hs Hne Hp. unfold startMatch, startOfDay.
  rewrite Hs, (truthyString_nonempty s Hne), Hp. apply dateGe_invalid.
Qed.

Lemma endMatch_unparseable (args : SearchArgs) (s : JsString) (m : Meeting) :
  endDate args = Some s -> s <> EmptyString -> Date_parse s = None ->
  endMatch args m = false.
Proof.
  intros Hs Hne Hp. unfold endMatch, endOfDay.
  rewrite Hs, (truthyString_nonempty s Hne), Hp. apply dateLe_invalid.
Qed.

Lemma filter_nothing {A} (f : A -> bool) (l : list A) :
  (forall x, f x = false) -> filter f l = [].
Proof.
  intros H. induction l as [|x l IH]; cbn; [reflexivity|]. now rewrite H.
Qed.

(** C9, as the code has it.  A start or end date that is a non-empty string
    and does not parse raises no error: its bound is an invalid date, every
    comparison with it is false, every record is excluded, and the tool
    returns no meeting with an error flag that is the aggregator's.  (An
    empty string is no date at all to the filter.) *)
Theorem unparseable_date_excludes_every_record
  (args : SearchArgs) (aggregate : Aggregate) :
  (exists s, startDate args = Some s /\ s <> EmptyString /\ Date_parse s = None) \/
  (exists s, endDate args = Some s /\ s <> EmptyString /\ Date_parse s = None) ->
  (forall s, Date_parse s = None -> startOfDay s = None /\ endOfDay s = None) /\
  (forall d, dateGe d None = false /\ dateLe d None = false) /\
  (forall m, searchFilter args m = false) /\
  filteredMeetings args (meetings aggregate) = [] /\
  searchResult args aggregate =
    {| text := stringifyMeetings [];
       structuredContent :=
         Some {| sc_meetings := []; sc_count := 0;
                 sc_elicitationPrompt := Some EmptyString |};
       isError := Some (hadError aggregate) |}.
Proof.
  intros H.
  assert (Hall : forall m, searchFilter args m = false).
  { intros m. rewrite searchFilter_parts.
    destruct H as [(s & Hs & Hne & Hp) | (s & Hs & Hne & Hp)].
    - rewrite (startMatch_unparseable args s m Hs Hne Hp).
      now rewrite andb_false_r.
    - rewrite (endMatch_unparseable args s m Hs Hne Hp).
      now rewrite !andb_false_r. }
  assert (Hnone : filteredMeetings args (meetings aggregate) = []).
  { now apply filter_nothing. }
  split; [|split; [|split; [|split]]].
  - intros s Hp. unfold startOfDay, endOfDay. now rewrite Hp.
  - intros d. split; [apply dateGe_invalid | apply dateLe_invalid].
  - exact Hall.
  - exact Hnone.
  - unfold searchResult. rewrite Hnone. cbn.
    now rewrite append_empty_r.
Qed.
End SearchTheorems.

(** *** The theorems on the example runtime *)

(** Two strings given letter by letter are the same, case ignored. *)
Ltac same_letter :=
  match goal with
  | |- sameLetter ?a ?b =>
      first [ left; reflexivity
            | right; exists ((N_of_ascii a - 65) mod 32)%N;
              split; [reflexivity|];
              first [left; split; reflexivity | right; split; reflexivity] ]
  end.

Ltac same_ignoring_case :=
  repeat first [ apply same_empty | apply same_letter; [same_letter|] ].

(** A keyword in capitals found in a participant's email, with a title
    keyword that is nowhere; and a title keyword in capitals found in the
    title, between two dates, with a participant keyword that is nowhere. *)
Lemma search_filter_keywords_or_fields_example :
  (keywordSupplied (searchArgs ["SAM@"] ["retro"] None None) /\
   asciiText (searchArgs ["SAM@"] ["retro"] None None) planning /\
   @searchFilter asciiAndGreek (isoDatesAt 0)
     (searchArgs ["SAM@"] ["retro"] None None) planning = true) /\
  (keywordSupplied
     (searchArgs ["nobody"] ["PLAN"] (Some "2024-01-10") (Some "2024-01-10")) /\
   asciiText
     (searchArgs ["nobody"] ["PLAN"] (Some "2024-01-10") (Some "2024-01-10"))
     planning /\
   @searchFilter asciiAndGreek (isoDatesAt 0)
     (searchArgs ["nobody"] ["PLAN"] (Some "2024-01-10") (Some "2024-01-10"))
     planning = true).
Proof.
  assert (Hfields : forall field, searchedField planning field ->
                                  isAscii field = true).
  { intros field [(invitees & invitee & Hc & Hin & Hf) | [H | H]].
    - injection Hc as <-. destruct Hin as [<- | []].
      destruct Hf as [Hf | Hf]; [discriminate | now injection Hf as <-].
    - now injection H as <-.
    - discriminate. }
  assert (Hsam : sameIgnoringCase "sam@" "SAM@") by same_ignoring_case.
  assert (Hplan : sameIgnoringCase "Plan" "PLAN") by same_ignoring_case.
  split.
  - assert (Hk : keywordSupplied (searchArgs ["SAM@"] ["retro"] None None)).
    { exists "SAM@". left. now left. }
    assert (Ha : asciiText (searchArgs ["SAM@"] ["retro"] None None) planning).
    { split; [|exact Hfields].
      intros kw [[<- | []] | [<- | []]]; reflexivity. }
    split; [exact Hk|]. split; [exact Ha|].
    apply (proj2 (@search_filter_keywords_or_fields asciiAndGreek (isoDatesAt 0)
                    (searchArgs ["SAM@"] ["retro"] None None) planning Hk) Ha).
    split.
    + exists "SAM@", "sam@x.com". split; [left; now left|]. split.
      * left. eexists _, _. split; [reflexivity|]. split; [now left|].
        now right.
      * exists EmptyString, "sam@", "x.com". split; [reflexivity | exact Hsam].
    + split; intros s Hs; discriminate.
  - assert (Hk : keywordSupplied
                   (searchArgs ["nobody"] ["PLAN"]
                      (Some "2024-01-10") (Some "2024-01-10"))).
    { exists "PLAN". right. now left. }
    assert (Ha : asciiText
                   (searchArgs ["nobody"] ["PLAN"]
                      (Some "2024-01-10") (Some "2024-01-10")) planning).
    { split; [|exact Hfields].
      intros kw [[<- | []] | [<- | []]]; reflexivity. }
    split; [exact Hk|]. split; [exact Ha|].
    apply (proj2 (@search_filter_keywords_or_fields asciiAndGreek (isoDatesAt 0)
                    (searchArgs ["nobody"] ["PLAN"]
                       (Some "2024-01-10") (Some "2024-01-10"))
                    planning Hk) Ha).
    split.
    + exists "PLAN", "Planning". split; [right; now left|]. split.
      * right. now left.
      * exists EmptyString, "Plan", "ning". split; [reflexivity | exact Hplan].
    + split; intros s [= <-]; exists 1704844800000.
      * exists 1704844800000. repeat split. discriminate.
      * exists 1704931199999. repeat split. discriminate.
Defined.

(** A keyword that is in the title letter for letter, and that the filter
    does not find: the capital sigma that ends the title goes to the final
    sigma, the capital sigma that is all of the keyword to the plain one. *)
Lemma final_sigma_hides_a_keyword :
  keywordSupplied (searchArgs [] ["Σ"] None None) /\
  keywordCriterion (searchArgs [] ["Σ"] None None) odos /\
  @dateCriterion (isoDatesAt 0) (searchArgs [] ["Σ"] None None) odos /\
  includes "ΟΔΟΣ" "Σ" = true /\
  @toLowerCase asciiAndGreek "ΟΔΟΣ" = "οδος" /\
  @toLowerCase asciiAndGreek "Σ" = "σ" /\
  @searchFilter asciiAndGreek (isoDatesAt 0)
    (searchArgs [] ["Σ"] None None) odos = false.
Proof.
  split; [exists "Σ"; right; now left|]. split; [|split].
  - exists "Σ", "ΟΔΟΣ". split; [right; now left|]. split.
    + right. now left.
    + exists "ΟΔΟ", "Σ", EmptyString. split; [reflexivity|].
      same_ignoring_case.
  - split; intros s Hs; discriminate.
  - repeat split.
Qed.

Lemma search_filter_identity_example :
  allKeywords (searchArgs [] [] None None) = [] /\
  @filteredMeetings asciiAndGreek (isoDatesAt 0) (searchArgs [] [] None None)
    [standup; planning] = [standup; planning].
Proof.
  split; [reflexivity|].
  apply (@search_filter_identity_without_criteria asciiAndGreek (isoDatesAt 0));
    reflexivity.
Defined.

(** In a zone one hour ahead of UTC the start date 2024-01-01 is the instant
    2023-12-31T23:00:00.000Z and the end date 2024-01-05 the instant
    2024-01-05T22:59:59.999Z: a meeting starting at either is kept, one
    starting a millisecond outside is not. *)
Lemma date_bounds_inclusive_example :
  (@startOfDay (isoDatesAt 3600000) "2024-01-01" = Some 1704063600000 /\
   @searchFilter asciiAndGreek (isoDatesAt 3600000)
     (searchArgs [] [] (Some "2024-01-01") None) (meetingAt 1704063600000)
   = true /\
   @searchFilter asciiAndGreek (isoDatesAt 3600000)
     (searchArgs [] [] (Some "2024-01-01") None)
     (meetingAt (1704063600000 - 1))
   = false) /\
  (@endOfDay (isoDatesAt 3600000) "2024-01-05" = Some 1704495599999 /\
   @searchFilter asciiAndGreek (isoDatesAt 3600000)
     (searchArgs [] [] None (Some "2024-01-05")) (meetingAt 1704495599999)
   = true /\
   @searchFilter asciiAndGreek (isoDatesAt 3600000)
     (searchArgs [] [] None (Some "2024-01-05"))
     (meetingAt (1704495599999 + 1))
   = false).
Proof.
  split; (split; [reflexivity|]); split.
  - destruct (@date_bounds_inclusive asciiAndGreek (isoDatesAt 3600000)
                (searchArgs [] [] (Some "2024-01-01") None)
                (meetingAt 1704063600000)) as [Hstart _].
    destruct (Hstart "2024-01-01" 1704067200000 1704063600000
                eq_refl eq_refl eq_refl) as (_ & _ & _ & Hat & _).
    rewrite (Hat eq_refl). reflexivity.
  - destruct (@date_bounds_inclusive asciiAndGreek (isoDatesAt 3600000)
                (searchArgs [] [] (Some "2024-01-01") None)
                (meetingAt (1704063600000 - 1))) as [Hstart _].
    destruct (Hstart "2024-01-01" 1704067200000 1704063600000
                eq_refl eq_refl eq_refl) as (_ & _ & _ & _ & Hbefore).
    exact (Hbefore eq_refl).
  - destruct (@date_bounds_inclusive asciiAndGreek (isoDatesAt 3600000)
                (searchArgs [] [] None (Some "2024-01-05"))
                (meetingAt 1704495599999)) as [_ Hend].
    destruct (Hend "2024-01-05" 1704412800000 1704495599999
                eq_refl eq_refl eq_refl) as (_ & _ & _ & Hat & _).
    rewrite (Hat eq_refl). reflexivity.
  - destruct (@date_bounds_inclusive asciiAndGreek (isoDatesAt 3600000)
                (searchArgs [] [] None (Some "2024-01-05"))
                (meetingAt (1704495599999 + 1))) as [_ Hend].
    destruct (Hend "2024-01-05" 1704412800000 1704495599999
                eq_refl eq_refl eq_refl) as (_ & _ & _ & _ & Hafter).
    exact (Hafter eq_refl).
Defined.

Lemma unparseable_date_example :
  (exists s, startDate (searchArgs [] [] (Some "next tuesday") None) = Some s /\
             s <> EmptyString /\ parseIsoDate s = None) /\
  @searchResult asciiAndGreek (isoDatesAt 0) plainMeetingText
    (searchArgs [] [] (Some "next tuesday") None)
    {| meetings := [standup; planning]; hadError := false |} =
    {| text := "[]";
       structuredContent :=
         Some {| sc_meetings := []; sc_count := 0;
                 sc_elicitationPrompt := Some EmptyString |};
       isError := Some false |}.
Proof.
  split.
  - exists "next tuesday". repeat split. discriminate.
  - apply (@unparseable_date_excludes_every_record asciiAndGreek
             (isoDatesAt 0) plainMeetingText
             (searchArgs [] [] (Some "next tuesday") None)
             {| meetings := [standup; planning]; hadError := false |}).
    left. exists "next tuesday". repeat split. discriminate.
Defined.

(** West of Greenwich the instant of a date-only string, which is read as
    midnight UTC, falls on the evening before: five hours behind UTC the
    bound for 2024-01-01 is the start of the local 31st of December,
    2023-12-31T05:00:00.000Z. *)
Example start_of_day_behind_utc :
  @startOfDay (isoDatesAt (-18000000)) "2024-01-01" = Some 1703998800000 /\
  Day (@LocalTime (isoDatesAt (-18000000)) 1703998800000)
  = daysFromCivil 2023 12 31 /\
  TimeWithinDay (@LocalTime (isoDatesAt (-18000000)) 1703998800000) = 0.
Proof. repeat split. Qed.

(** C4, at an input where the code misses it.  Five hours behind UTC the
    start date 2024-01-02, read as midnight UTC, is an instant of the local
    evening of 1 January, and [setHours] takes it back to the start of that
    local day, 2024-01-01T05:00:00.000Z.  A meeting scheduled for noon UTC of
    1 January, which is 1 January on every clock, then passes the start date
    2024-01-02.  In the same way the end date 2024-01-05 closes with the
    local 4 January, and a meeting at 10:00 local time on 5 January is
    dropped. *)
Theorem date_bound_falls_a_day_early :
  (@Date_parse (isoDatesAt (-18000000)) "2024-01-02" = Some 1704153600000 /\
   @startOfDay (isoDatesAt (-18000000)) "2024-01-02" = Some 1704085200000 /\
   Day 1704110400000 = daysFromCivil 2024 1 1 /\
   Day (@LocalTime (isoDatesAt (-18000000)) 1704110400000)
   = daysFromCivil 2024 1 1 /\
   @searchFilter asciiAndGreek (isoDatesAt (-18000000))
     (searchArgs [] [] (Some "2024-01-02") None) (meetingAt 1704110400000)
   = true) /\
  (@endOfDay (isoDatesAt (-18000000)) "2024-01-05" = Some 1704430799999 /\
   Day (@LocalTime (isoDatesAt (-18000000)) 1704466800000)
   = daysFromCivil 2024 1 5 /\
   TimeWithinDay (@LocalTime (isoDatesAt (-18000000)) 1704466800000)
   = MakeTime 10 0 0 0 /\
   @searchFilter asciiAndGreek (isoDatesAt (-18000000))
     (searchArgs [] [] None (Some "2024-01-05")) (meetingAt 1704466800000)
   = false).
Proof. repeat split. Qed.

(** The empty string does not parse as a date, and as a start date it
    excludes nothing. *)
Lemma empty_start_date_excludes_nothing :
  startDate (searchArgs [] [] (Some EmptyString) None) = Some EmptyString /\
  @Date_parse (isoDatesAt 0) EmptyString = None /\
  @filteredMeetings asciiAndGreek (isoDatesAt 0)
      (searchArgs [] [] (Some EmptyString) None)
    [standup; planning] = [standup; planning].
Proof.
  repeat split.
Qed.

(** A meeting of an hour and half a minute lasts 61 minutes, the half going
    up.  Over a span too long for binary64 to hold to the millisecond the
    subtraction rounds first: here to 247609162718 minutes, where the count
    in whole numbers is a minute less. *)
Example duration_example :
  durationMinutes (Some 1704067200000) (Some 1704070830000) = numberOfZ 61 /\
  durationMinutes (Some (-7815078273472865)) (Some 7041471489577134)
  = numberOfZ 247609162718 /\
  (7041471489577134 - -7815078273472865 + 30000) / 60000 = 247609162717 /\
  durationMinutes None (Some 1704070830000) = S754_nan.
Proof. repeat split. Qed.

(** The example of the specification: of the two meetings only the stand-up
    has "standup" in a title and starts between the two dates. *)
Example search_example :
  @filteredMeetings asciiAndGreek (isoDatesAt 0)
    (searchArgs [] ["standup"] (Some "2024-01-01") (Some "2024-01-05"))
    [standup; planning] = [standup].
Proof. reflexivity. Qed.

(** A keyword found in a participant's email is enough, whatever the titles
    say, and so is one found in a title. *)
Example participant_or_title_example :
  @filteredMeetings asciiAndGreek (isoDatesAt 0)
      (searchArgs ["SAM@"] ["retro"] None None)
    [standup; planning] = [planning] /\
  @filteredMeetings asciiAndGreek (isoDatesAt 0)
      (searchArgs ["nobody"] ["PLAN"] None None)
    [standup; planning] = [planning].
Proof. split; reflexivity. Qed.

(* ===================================================================== *)
(** ** The aggregator *)
(* ===================================================================== *)

(** Open one turn of the loop, for variables whose [hasMorePages] is known. *)
Ltac one_turn Hm :=
  unfold runWith, fetchAllMeetingsFrom;
  rewrite unfold_iter; unfold loopTurn at 1; rewrite Hm.

(** Let the service answer the request of the turn. *)
Ltac answer_arrives :=
  rewrite bind_bind, interp_state_bind, interp_state_trigger; cbn;
  rewrite bind_ret_l; cbn; rewrite bind_ret_l; cbn.

Section AggregatorFacts.
Variables s t : bool.

Lemma loop_stopped (v : LoopVars) (u : Upstream) :
  var_hasMorePages v = false ->
  runWith (fetchAllMeetingsFrom s t v) u ≈ Ret (u, returned v).
Proof.
  intros Hm. one_turn Hm.
  rewrite bind_ret_l, interp_state_ret. reflexivity.
Qed.

(** A page that arrives is appended, and the loop goes on from there with the
    request logged; what it does next is up to the cursor of the page. *)
Lemma loop_page_arrived (v : LoopVars) (r : ListMeetingsResult)
  (rest : list Page) (recv : list ListMeetingsRequest) :
  var_hasMorePages v = true ->
  runWith (fetchAllMeetingsFrom s t v)
          {| answers := Fulfilled r :: rest; received := recv |}
  ≈ runWith (fetchAllMeetingsFrom s t (pageArrived v r))
            {| answers := rest; received := recv ++ [requestOf s t v] |}.
Proof.
  intros Hm. one_turn Hm. answer_arrives.
  rewrite interp_state_tau, tau_eutt. reflexivity.
Qed.

(** A page that fails ends the loop on the spot. *)
Lemma loop_page_failed (v : LoopVars) (e : JsError)
  (rest : list Page) (recv : list ListMeetingsRequest) :
  var_hasMorePages v = true ->
  runWith (fetchAllMeetingsFrom s t v)
          {| answers := Rejected e :: rest; received := recv |}
  ≈ Ret ({| answers := rest; received := recv ++ [requestOf s t v] |},
         returned (pageFailed v)).
Proof.
  intros Hm. one_turn Hm. answer_arrives.
  rewrite interp_state_ret. reflexivity.
Qed.

(** The loop in one statement: the pages that continue are consumed in
    order, the first page that does not continue ends the loop, and what
    follows it is never asked for. *)
Lemma loop_runs (before : list Page) : forall v last after recv,
  var_hasMorePages v = true ->
  forallb continues before = true ->
  continues last = false ->
  runWith (fetchAllMeetingsFrom s t v)
          {| answers := before ++ last :: after; received := recv |}
  ≈ Ret ({| answers := after;
            received :=
              recv ++ requestsSent s t (var_cursor v) (before ++ [last]) |},
         {| meetings :=
              var_allMeetings v
              ++ concat (List.map pageItems (before ++ [last]));
            hadError := var_hadError v || negb (isFulfilled last) |}).
Proof.
  induction before as [|p before IH]; intros v last after recv Hm Hb Hl.
  - cbn [app]. destruct last as [r|e]; cbn in Hl |- *.
    + rewrite loop_page_arrived by assumption.
      rewrite loop_stopped by (cbn; assumption).
      unfold returned, pageArrived, requestOf; cbn.
      rewrite app_nil_r, orb_false_r. reflexivity.
    + rewrite loop_page_failed by assumption.
      unfold returned, pageFailed, requestOf; cbn.
      rewrite app_nil_r, orb_true_r. reflexivity.
  - cbn in Hb. apply andb_true_iff in Hb as [Hp Hb].
    destruct p as [r|e]; cbn in Hp; [|discriminate].
    cbn [app]. rewrite loop_page_arrived by assumption.
    rewrite IH by (cbn; assumption).
    unfold requestOf, requestsSent; cbn.
    rewrite <- !app_assoc. reflexivity.
Qed.

Lemma fetchAllMeetings_runs (before : list Page) (last : Page)
  (after : list Page) :
  forallb continues before = true ->
  continues last = false ->
  runWith (fetchAllMeetings s t)
          {| answers := before ++ last :: after; received := [] |}
  ≈ Ret ({| answers := after;
            received := requestsSent s t (Some EmptyString) (before ++ [last]) |},
         {| meetings := concat (List.map pageItems (before ++ [last]));
            hadError := negb (isFulfilled last) |}).
Proof.
  intros Hb Hl. unfold fetchAllMeetings.
  now rewrite (loop_runs before initialVars last after []).
Qed.
End AggregatorFacts.

(** A sequence of answers with a page that does not continue splits at the
    first such page. *)
Lemma first_stop (answers : list Page) :
  existsb (fun p => negb (continues p)) answers = true ->
  exists before last after,
    answers = before ++ last :: after /\
    forallb continues before = true /\ continues last = false.
Proof.
  induction answers as [|p answers IH]; cbn; [discriminate|].
  destruct (continues p) eqn:Hp; cbn.
  - intros H. destruct (IH H) as (before & last & after & -> & Hb & Hl).
    exists (p :: before), last, after. cbn. now rewrite Hp, Hb.
  - intros _. now exists [], p, answers.
Qed.

Lemma cursorsSent_app (pages : list Page) : forall c last,
  cursorsSent c (pages ++ [last]) = c :: List.map pageCursor pages.
Proof.
  induction pages as [|p pages IH]; intros c last; cbn; [reflexivity|].
  now rewrite IH.
Qed.

Lemma cursors_of_requestsSent (s t : bool) (c : JsCursor) (pages : list Page) :
  List.map cursor (requestsSent s t c pages) = cursorsSent c pages.
Proof.
  unfold requestsSent. rewrite List.map_map. cbn. apply List.map_id.
Qed.

Lemma length_requestsSent (s t : bool) (pages : list Page) : forall c,
  length (requestsSent s t c pages) = length pages.
Proof.
  unfold requestsSent.
  induction pages as [|p pages IH]; intros c; cbn; [reflexivity|].
  now rewrite IH.
Qed.

Lemma forallb_continues_fulfilled (results : list ListMeetingsResult) :
  forallb continues (List.map Fulfilled results) =
  forallb (fun r => truthyCursor (nextCursor r)) results.
Proof.
  induction results as [|r results IH]; cbn; [reflexivity | now rewrite IH].
Qed.

Lemma pageItems_fulfilled (results : list ListMeetingsResult) :
  List.map pageItems (List.map Fulfilled results) = List.map items results.
Proof.
  now rewrite List.map_map.
Qed.



(** C2.  When the request for page k throws and the pages before it arrived,
    [fetchAllMeetings] returns the items of pages 1 to k-1 and an error flag
    that is set, after k requests: the answers beyond page k stay where they
    are. *)
Theorem fetchAllMeetings_stops_at_failure (s t : bool)
  (earlier : list ListMeetingsResult) (error : JsError) (later : list Page) :
  forallb (fun r => truthyCursor (nextCursor r)) earlier = true ->
  runWith (fetchAllMeetings s t)
          {| answers := List.map Fulfilled earlier ++ Rejected error :: later;
             received := [] |}
  ≈ Ret ({| answers := later;
            received :=
              requestsSent s t (Some EmptyString)
                           (List.map Fulfilled earlier ++ [Rejected error]) |},
         {| meetings := concat (List.map items earlier); hadError := true |})
  /\
  length (requestsSent s t (Some EmptyString)
                       (List.map Fulfilled earlier ++ [Rejected error]))
  = S (length earlier).
Proof.
  intros He. split.
  - rewrite fetchAllMeetings_runs.
    + rewrite List.map_app, concat_app, pageItems_fulfilled. cbn.
      now rewrite app_nil_r.
    + now rewrite forallb_continues_fulfilled.
    + reflexivity.
  - rewrite length_requestsSent, length_app, length_map. cbn. lia.
Qed.

Lemma fetchAllMeetings_stops_at_failure_example :
  forallb (fun r => truthyCursor (nextCursor r)) [page1; page2] = true /\
  runWith (fetchAllMeetings false false)
          {| answers := [Fulfilled page1; Fulfilled page2;
                         Rejected "Error: 503"; Fulfilled page3];
             received := [] |}
  ≈ Ret ({| answers := [Fulfilled page3];
            received := [metadataRequest (Some EmptyString);
                         metadataRequest (Some "c1");
                         metadataRequest (Some "c2")] |},
         {| meetings := [standup]; hadError := true |}).
Proof.
  split; [reflexivity|].
  exact (proj1 (fetchAllMeetings_stops_at_failure false false [page1; page2]
                  "Error: 503" [Fulfilled page3] eq_refl)).
Defined.

(** A page that hands out a cursor is one the loop goes on after. *)
Lemma handsOutCursor_continues (p : Page) :
  handsOutCursor p -> continues p = true.
Proof.
  intros (result & next & -> & Hc & Hne). cbn. unfold truthyCursor.
  rewrite Hc. cbn. now destruct (String.eqb_spec next EmptyString).
Qed.

(** A page that ends the pagination is one the loop stops at, with an error
    exactly when the request failed. *)
Lemma endsPagination_stops (p : Page) (failed : bool) :
  endsPagination p failed ->
  continues p = false /\ failed = negb (isFulfilled p).
Proof.
  intros [(error & -> & ->) | (result & -> & Hc & ->)]; cbn; [auto|].
  unfold truthyCursor. destruct Hc as [-> | ->]; auto.
Qed.

(** Every page does one or the other. *)
Lemma page_goes_on_or_ends (p : Page) :
  handsOutCursor p \/ exists failed, endsPagination p failed.
Proof.
  destruct p as [result|error].
  - destruct (nextCursor result) as [next|] eqn:Hc.
    + destruct (String.eqb_spec next EmptyString) as [E|E].
      * right. exists false. right. exists result. subst next. auto.
      * left. now exists result, next.
    + right. exists false. right. exists result. auto.
  - right. exists true. left. now exists error.
Qed.

Lemma Forall_handsOutCursor_continues (pages : list Page) :
  Forall handsOutCursor pages -> forallb continues pages = true.
Proof.
  induction 1 as [|p pages Hp _ IH]; cbn; [reflexivity|].
  now rewrite (handsOutCursor_continues p Hp).
Qed.

(** The cursors that pages with a cursor hand out are not the empty one the
    loop starts with. *)
Lemma first_cursor_is_not_handed_out (pages : list Page) :
  Forall handsOutCursor pages ->
  ~ In (Some EmptyString) (List.map pageCursor pages).
Proof.
  induction 1 as [|p pages Hp _ IH]; cbn; [auto|].
  intros [H | H]; [|auto].
  destruct Hp as (result & next & -> & Hc & Hne). cbn in H. congruence.
Qed.

(** C6, as the code has it.  Past every page that hands out a non-empty
    cursor, with or without items, the loop goes on, and it sends that
    cursor, and no other, in the next request; at the first page that fails
    or arrives without such a cursor (none, or the empty string) it returns,
    with the error flag set exactly when the page failed.  So it asks once
    for each page up to that one, first with the empty cursor and then with
    the cursor of the page before, and no cursor is sent twice unless the
    service hands it out twice.  Every sequence of answers that has a page
    which fails or arrives without a cursor is of this kind, and the loop
    returns on it. *)
Theorem pagination_follows_the_cursor (s t : bool) :
  (forall (before : list Page) (last : Page) (after : list Page)
          (failed : bool),
      Forall handsOutCursor before ->
      endsPagination last failed ->
      runWith (fetchAllMeetings s t)
              {| answers := before ++ last :: after; received := [] |}
      ≈ Ret ({| answers := after;
                received :=
                  requestsSent s t (Some EmptyString) (before ++ [last]) |},
             {| meetings := concat (List.map pageItems (before ++ [last]));
                hadError := failed |}) /\
      List.map cursor (requestsSent s t (Some EmptyString) (before ++ [last]))
      = Some EmptyString :: List.map pageCursor before /\
      (NoDup (List.map pageCursor before) ->
       NoDup (List.map cursor
                (requestsSent s t (Some EmptyString) (before ++ [last])))))
  /\
  (forall pages : list Page,
      Exists (fun p => exists failed, endsPagination p failed) pages ->
      exists before last after failed,
        pages = before ++ last :: after /\
        Forall handsOutCursor before /\
        endsPagination last failed /\
        runWith (fetchAllMeetings s t) {| answers := pages; received := [] |}
        ≈ Ret ({| answers := after;
                  received :=
                    requestsSent s t (Some EmptyString) (before ++ [last]) |},
               {| meetings := concat (List.map pageItems (before ++ [last]));
                  hadError := failed |})).
Proof.
  assert (Hsplit : forall pages : list Page,
             Exists (fun p => exists failed, endsPagination p failed) pages ->
             exists before last after failed,
               pages = before ++ last :: after /\
               Forall handsOutCursor before /\
               endsPagination last failed).
  { induction pages as [|p pages IH]; intros Hex.
    - inversion Hex.
    - destruct (page_goes_on_or_ends p) as [Hgo | [failed Hend]].
      + assert (Hrest : Exists (fun p => exists failed, endsPagination p failed)
                               pages).
        { inversion Hex as [? ? [failed Hend] | ? ? Hrest]; subst; [|exact Hrest].
          destruct (endsPagination_stops p failed Hend) as [Hstop _].
          rewrite (handsOutCursor_continues p Hgo) in Hstop. discriminate. }
        destruct (IH Hrest) as (before & last & after & failed & -> & Hb & Hl).
        exists (p :: before), last, after, failed.
        split; [reflexivity|]. split; [now constructor | exact Hl].
      + exists [], p, pages, failed.
        split; [reflexivity|]. split; [constructor | exact Hend]. }
  assert (Hrun : forall before last after failed,
             Forall handsOutCursor before ->
             endsPagination last failed ->
             runWith (fetchAllMeetings s t)
                     {| answers := before ++ last :: after; received := [] |}
             ≈ Ret ({| answers := after;
                       received :=
                         requestsSent s t (Some EmptyString)
                                      (before ++ [last]) |},
                    {| meetings :=
                         concat (List.map pageItems (before ++ [last]));
                       hadError := failed |})).
  { intros before last after failed Hb Hl.
    destruct (endsPagination_stops last failed Hl) as [Hstop ->].
    apply fetchAllMeetings_runs;
      [now apply Forall_handsOutCursor_continues | exact Hstop]. }
  split.
  2:{ intros pages Hex.
      destruct (Hsplit pages Hex) as (before & last & after & failed & -> & Hb & Hl).
      exists before, last, after, failed.
      split; [reflexivity|]. split; [exact Hb|]. split; [exact Hl|].
      now apply Hrun. }
  - intros before last after failed Hb Hl.
    destruct (endsPagination_stops last failed Hl) as [Hstop ->].
    assert (Hcursors :
              List.map cursor
                (requestsSent s t (Some EmptyString) (before ++ [last]))
              = Some EmptyString :: List.map pageCursor before)
      by now rewrite cursors_of_requestsSent, cursorsSent_app.
    split; [|split].
    + now apply Hrun.
    + exact Hcursors.
    + intros Hnodup. rewrite Hcursors. constructor; [|exact Hnodup].
      now apply first_cursor_is_not_handed_out.
Qed.

(** Four answers: a page with a cursor, a page with a cursor and no meeting,
    a page whose cursor is the empty string, and one more page.  The loop
    asks three times, with the cursors it was handed, and returns at the
    third page without an error; the fourth is never asked for. *)
Lemma pagination_follows_the_cursor_example :
  runWith (fetchAllMeetings false false)
          {| answers := [Fulfilled page1; Fulfilled page2;
                         Fulfilled pageEmptyCursor; Fulfilled page3];
             received := [] |}
  ≈ Ret ({| answers := [Fulfilled page3];
            received := [metadataRequest (Some EmptyString);
                         metadataRequest (Some "c1");
                         metadataRequest (Some "c2")] |},
         {| meetings := [standup; planning]; hadError := false |}) /\
  NoDup [Some EmptyString; Some "c1"; Some "c2"] /\
  runWith (fetchAllMeetings false false)
          {| answers := [Fulfilled page2; Rejected "Error: 503";
                         Fulfilled page3];
             received := [] |}
  ≈ Ret ({| answers := [Fulfilled page3];
            received := [metadataRequest (Some EmptyString);
                         metadataRequest (Some "c2")] |},
         {| meetings := []; hadError := true |}).
Proof.
  assert (H1 : handsOutCursor (Fulfilled page1)).
  { exists page1, "c1". repeat split. discriminate. }
  assert (H2 : handsOutCursor (Fulfilled page2)).
  { exists page2, "c2". repeat split. discriminate. }
  assert (H3 : endsPagination (Fulfilled pageEmptyCursor) false).
  { right. exists pageEmptyCursor. repeat split. now right. }
  assert (H4 : endsPagination (Rejected "Error: 503") true).
  { left. now exists "Error: 503". }
  assert (Hnodup : NoDup (List.map pageCursor [Fulfilled page1; Fulfilled page2])).
  { repeat constructor; cbn; intuition discriminate. }
  destruct (pagination_follows_the_cursor false false) as [Hloop _].
  destruct (Hloop [Fulfilled page1; Fulfilled page2]
                  (Fulfilled pageEmptyCursor) [Fulfilled page3] false
                  (Forall_cons _ H1 (Forall_cons _ H2 (Forall_nil _))) H3)
    as (Hrun & _ & Hsent).
  destruct (Hloop [Fulfilled page2] (Rejected "Error: 503") [Fulfilled page3]
                  true (Forall_cons _ H2 (Forall_nil _)) H4)
    as (Hfail & _ & _).
  split; [exact Hrun|]. split; [exact (Hsent Hnodup) | exact Hfail].
Defined.

(** The loop keeps no record of the cursors it has used.  A service that
    hands out the cursor "c1" twice is asked for "c1" twice. *)
Lemma repeated_cursor_is_requested_again :
  nextCursor page1 = Some "c1" /\
  runWith (fetchAllMeetings false false)
          {| answers := [Fulfilled page1; Fulfilled page1; Fulfilled page3];
             received := [] |}
  ≈ Ret ({| answers := [];
            received := [metadataRequest (Some EmptyString);
                         metadataRequest (Some "c1");
                         metadataRequest (Some "c1")] |},
         {| meetings := [standup; standup; planning; standup];
            hadError := false |}).
Proof.
  split; [reflexivity|].
  exact (fetchAllMeetings_runs false false [Fulfilled page1; Fulfilled page1]
           (Fulfilled page3) [] eq_refl eq_refl).
Qed.

(* ===================================================================== *)
(** ** The requests of [search_meetings] *)
(* ===================================================================== *)

Lemma everyRequest_mon (P : ListMeetingsRequest -> Prop) (R : Type) :
  monotone1 (@everyRequest_ P R).
Proof.
  intros t r r' H LE. unfold everyRequest_ in *.
  destruct H; constructor; auto.
Qed.
#[local] Hint Resolve everyRequest_mon : paco.

(** Whatever is done with the aggregate, every request that is ever sent
    carries the two flags the aggregator was called with. *)
Lemma fetchAllMeetings_passes_flags (s t : bool) (R : Type) (k : Aggregate -> R) :
  forall v,
    everyRequest (fun q => includeSummary q = s /\ includeTranscript q = t)
      (aggregate <- fetchAllMeetingsFrom s t v;; Ret (k aggregate)).
Proof.
  pcofix CIH. intros [all c more err].
  pfold. unfold everyRequest_, fetchAllMeetingsFrom. destruct more; cbn.
  - constructor; [split; reflexivity|]. intros [r0|e]; cbn.
    + left. pfold. unfold everyRequest_. cbn. constructor. right. apply CIH.
    + left. pfold. unfold everyRequest_. cbn. constructor.
  - constructor.
Qed.

Lemma runWith_bind {A B} (t : itree fathomE A) (k : A -> itree fathomE B)
  (u : Upstream) :
  runWith (ITree.bind t k) u
  ≈ ITree.bind (runWith t u) (fun ua => runWith (k (snd ua)) (fst ua)).
Proof.
  unfold runWith. rewrite interp_state_bind. reflexivity.
Qed.

Lemma runWith_ret {A} (a : A) (u : Upstream) : runWith (Ret a) u ≈ Ret (u, a).
Proof.
  unfold runWith. rewrite interp_state_ret. reflexivity.
Qed.

Lemma requestsSent_metadataOnly (c : JsCursor) (pages : list Page) :
  Forall metadataOnly (requestsSent false false c pages).
Proof.
  unfold requestsSent. apply Forall_forall. intros q Hq.
  apply in_map_iff in Hq as (c' & <- & _). split; reflexivity.
Qed.

(** The predicate does tell requests apart: an aggregator asked for
    summaries does not pass for one that asks for metadata only. *)
Lemma everyRequest_first (P : ListMeetingsRequest -> Prop) {R : Type}
  (t : itree fathomE R) (q : ListMeetingsRequest) :
  everyRequest P t -> firstRequest (observe t) = Some q -> P q.
Proof.
  intros H. punfold H. unfold everyRequest_ in H.
  destruct H; cbn; try discriminate. now intros [= <-].
Qed.

Lemma summaries_are_noticed :
  ~ everyRequest metadataOnly (fetchAllMeetings true false).
Proof.
  intros H.
  destruct (everyRequest_first _ _ _ H eq_refl) as [Hs _]. discriminate.
Qed.

(** A promise that stays pending returns nothing. *)
Lemma Leaf_spin {E R} (x : R) : ~ Leaf x (@ITree.spin E R).
Proof.
  intros H. remember (@ITree.spin E R) as t eqn:Et.
  induction H; subst.
  - cbn in H. discriminate.
  - cbn in H. injection H as <-. now apply IHLeaf.
  - cbn in H. discriminate.
Qed.

Lemma onlyAdds_refl (P : ListMeetingsRequest -> Prop) (u : Upstream) :
  onlyAdds P u u.
Proof.
  exists []. now rewrite app_nil_r.
Qed.

Lemma onlyAdds_step (P : ListMeetingsRequest -> Prop) (u u1 : Upstream)
  (q : ListMeetingsRequest) :
  onlyAdds P u u1 -> P q ->
  forall rest,
    onlyAdds P u {| answers := rest; received := received u1 ++ [q] |}.
Proof.
  intros (new & E & Hnew) Hq rest. exists (new ++ [q]). cbn.
  rewrite E, <- app_assoc. split; [reflexivity|].
  apply Forall_app. auto.
Qed.

(** Whatever the service answers, a run of the aggregator that returns has
    sent requests with the flags it was called with, and only such: an
    invariant of the loop. *)
Lemma requests_of_a_run_that_returns (s t : bool) (v : LoopVars)
  (u u' : Upstream) (a : Aggregate) :
  Leaf (u', a) (runWith (fetchAllMeetingsFrom s t v) u) ->
  onlyAdds (fun q => includeSummary q = s /\ includeTranscript q = t) u u'.
Proof.
  intros H. unfold runWith, fetchAllMeetingsFrom in H.
  set (P := fun q => includeSummary q = s /\ includeTranscript q = t).
  apply (Leaf_interp_state_iter_inv upstream (loopTurn s t)
           (onlyAdds P u) (fun _ => True) (fun _ => True) u v) in H;
    [exact (proj1 H) | | apply onlyAdds_refl | exact I].
  clear. intros u1 v1 Hu1 _ [u2 x] Hleaf.
  unfold loopTurn in Hleaf. destruct (var_hasMorePages v1).
  - rewrite interp_state_bind, interp_state_trigger in Hleaf.
    apply Leaf_bind_inv in Hleaf as ([u3 page] & Hcall & Hleaf).
    cbn in Hcall. destruct (answers u1) as [|p rest] eqn:Ea.
    + now apply Leaf_spin in Hcall.
    + apply Leaf_Ret_inv in Hcall. injection Hcall as Eu Ep. subst u3 page.
      cbn in Hleaf.
      assert (Hu3 : onlyAdds P u
                      {| answers := rest;
                         received := received u1 ++ [requestOf s t v1] |}).
      { apply onlyAdds_step; [exact Hu1 | split; reflexivity]. }
      destruct p as [r|e]; rewrite interp_state_ret in Hleaf;
        apply Leaf_Ret_inv in Hleaf; injection Hleaf as Eu Ex; subst u2 x;
        split; cbn; auto.
  - rewrite interp_state_ret in Hleaf. apply Leaf_Ret_inv in Hleaf.
    injection Hleaf as Eu Ex. subst u2 x. split; cbn; auto.
Qed.

Section RequestTheorems.
Context {SR : StringRuntime} {DR : DateRuntime} {MT : MeetingText}.

(** C10.  Whatever its arguments, [search_meetings] runs the aggregator with
    both flags off.  No request it ever sends, however long the pagination
    runs and whatever it is answered, asks for summaries or transcripts; and
    when a run returns, the service has received requests for metadata only,
    and the result is the one built from the aggregate. *)
Theorem search_meetings_requests_metadata_only (args : SearchArgs) :
  search_meetings args
  = (aggregate <- fetchAllMeetings false false;;
     Ret (searchResult args aggregate)) /\
  everyRequest metadataOnly (search_meetings args) /\
  (forall u u' result,
      runWith (search_meetings args) u ≈ Ret (u', result) ->
      onlyAdds metadataOnly u u').
Proof.
  split; [reflexivity|]. split.
  - apply (fetchAllMeetings_passes_flags false false _ (searchResult args)).
  - intros u u' result Hrun.
    assert (Hleaf : Leaf (u', result) (runWith (search_meetings args) u)).
    { rewrite Hrun. apply Leaf_Ret. }
    unfold search_meetings in Hleaf. rewrite runWith_bind in Hleaf.
    apply Leaf_bind_inv in Hleaf as ([u1 a] & Hfetch & Hret).
    cbn in Hret. rewrite runWith_ret in Hret.
    apply Leaf_Ret_inv in Hret. injection Hret as Eu _. subst u1.
    exact (requests_of_a_run_that_returns false false initialVars u u' a Hfetch).
Qed.

(** The tool on a service that answers with a list of pages. *)
Lemma search_meetings_runs (args : SearchArgs)
  (before : list Page) (last : Page) (after : list Page) :
  forallb continues before = true ->
  continues last = false ->
  runWith (search_meetings args)
          {| answers := before ++ last :: after; received := [] |}
  ≈ Ret ({| answers := after;
            received :=
              requestsSent false false (Some EmptyString) (before ++ [last]) |},
         searchResult args
           {| meetings := concat (List.map pageItems (before ++ [last]));
              hadError := negb (isFulfilled last) |}).
Proof.
  intros Hb Hl. unfold search_meetings.
  rewrite runWith_bind, (fetchAllMeetings_runs false false before last after Hb Hl).
  rewrite bind_ret_l. cbn. apply runWith_ret.
Qed.
End RequestTheorems.

(** The specification's search on three pages of answers: the tool returns,
    the service has received three requests, all for metadata only, and the
    stand-up is found twice, as it was listed twice. *)
Lemma search_meetings_requests_example :
  runWith (@search_meetings asciiAndGreek (isoDatesAt 0) plainMeetingText
             (searchArgs [] ["standup"] (Some "2024-01-01") (Some "2024-01-05")))
          {| answers := [Fulfilled page1; Fulfilled page2; Fulfilled page3];
             received := [] |}
  ≈ Ret ({| answers := [];
            received := [metadataRequest (Some EmptyString);
                         metadataRequest (Some "c1");
                         metadataRequest (Some "c2")] |},
         @searchResult asciiAndGreek (isoDatesAt 0) plainMeetingText
           (searchArgs [] ["standup"] (Some "2024-01-01") (Some "2024-01-05"))
           {| meetings := [standup; planning; standup]; hadError := false |})
  /\
  onlyAdds metadataOnly
    {| answers := [Fulfilled page1; Fulfilled page2; Fulfilled page3];
       received := [] |}
    {| answers := [];
       received := [metadataRequest (Some EmptyString);
                    metadataRequest (Some "c1");
                    metadataRequest (Some "c2")] |}.
Proof.
  pose proof (@search_meetings_runs asciiAndGreek (isoDatesAt 0)
      plainMeetingText
                (searchArgs [] ["standup"] (Some "2024-01-01") (Some "2024-01-05"))
                [Fulfilled page1; Fulfilled page2] (Fulfilled page3) []
                eq_refl eq_refl) as Hrun.
  split; [exact Hrun|].
  exact (proj2 (proj2 (@search_meetings_requests_metadata_only asciiAndGreek
                         (isoDatesAt 0) plainMeetingText
                         (searchArgs [] ["standup"] (Some "2024-01-01")
                                     (Some "2024-01-05"))))
           _ _ _ Hrun).
Defined.

Example search_result_example :
  structuredContent
    (@searchResult asciiAndGreek (isoDatesAt 0) plainMeetingText
       (searchArgs [] ["standup"] (Some "2024-01-01") (Some "2024-01-05"))
       {| meetings := [standup; planning; standup]; hadError := false |})
  = Some {| sc_meetings :=
              [@formatMeeting plainMeetingText standup;
               @formatMeeting plainMeetingText standup];
            sc_count := 2;
            sc_elicitationPrompt := Some elicitationText |}.
Proof. reflexivity. Qed.

(* ===================================================================== *)
(** ** The transcript tool *)
(* ===================================================================== *)

(** The test the handler makes on the body is the specification's "an object
    containing a transcript array". *)
Lemma recognized_iff (data : JsValue) :
  truthy data && typeofObject data && hasProperty "transcript" data
  && isArray (read "transcript" data) = true <->
  exists segments, isTranscriptBody data segments.
Proof.
  unfold isTranscriptBody. split.
  - rewrite !andb_true_iff. intros [[[_ Hobject] Hhas] Harray].
    destruct data as [| | | | | |properties]; try discriminate.
    cbn in Harray.
    destruct (lookup "transcript" properties) as [v|] eqn:E; [|discriminate].
    destruct v; try discriminate. eauto.
  - intros (segments & properties & -> & E). cbn. now rewrite E.
Qed.

Lemma read_transcript (data : JsValue) (segments : list JsValue) :
  isTranscriptBody data segments -> read "transcript" data = JsArray segments.
Proof.
  intros (properties & -> & E). cbn. now rewrite E.
Qed.


Lemma mapThrowing_null (before after : list JsValue) :
  Forall (fun segment => nullish segment = false) before ->
  mapThrowing formatSegment (before ++ JsNull :: after)
  = Rejected (readOfNullish "speaker" JsNull).
Proof.
  induction 1 as [|segment before Hs _ IH]; cbn -[readOfNullish];
    [reflexivity|].
  unfold formatSegment at 1. now rewrite Hs, IH.
Qed.



Section TranscriptTheorems.
Context {TT : TranscriptText}.


(** C8, as the code has it.  Unless the fetch delivered a body that is an
    object containing a transcript array, the handler that fetches over HTTP
    returns an error result that carries a message: the body under
    "Unexpected response format: " when there was a body to a successful
    response, the error under "Error fetching transcript: " otherwise.  (The
    earlier handler, which went through the SDK, passes such an answer on
    with no error.) *)
Theorem unrecognized_transcript_is_an_error (recordingId : JsNumber)
  (fetched : Settled HttpResponse) :
  ~ hasTranscriptBody fetched ->
  isError (fathom_get_transcript recordingId fetched) = Some true /\
  structuredContent (fathom_get_transcript recordingId fetched) = None /\
  ((exists data,
       text (fathom_get_transcript recordingId fetched)
       = ("Unexpected response format: " ++ stringifyValue data)%string) \/
   (exists error,
       text (fathom_get_transcript recordingId fetched)
       = ("Error fetching transcript: " ++ error)%string)) /\
  (forall response data,
      fetched = Fulfilled response -> ok response = true ->
      json response = Fulfilled data ->
      text (fathom_get_transcript recordingId fetched)
      = ("Unexpected response format: " ++ stringifyValue data)%string).
Proof.
  intros Hnot. unfold fathom_get_transcript, transcriptTry.
  destruct fetched as [response|e].
  2:{ cbn -[append].
      split; [reflexivity|]. split; [reflexivity|].
      split; [right; now exists e | discriminate]. }
  destruct (ok response) eqn:Hok; cbn -[append].
  2:{ split; [reflexivity|]. split; [reflexivity|].
      split; [right; eexists; reflexivity|].
      intros response' data' [= <-] Hok'. congruence. }
  destruct (json response) as [data|e] eqn:Hjson.
  2:{ cbn -[append].
      split; [reflexivity|]. split; [reflexivity|].
      split; [right; now exists e|].
      intros response' data' [= <-] _ Hjson'. congruence. }
  destruct (truthy data && typeofObject data && hasProperty "transcript" data
            && isArray (read "transcript" data)) eqn:Hshape.
  - exfalso. apply Hnot. apply recognized_iff in Hshape as (segments & Hbody).
    now exists response, data, segments.
  - cbn -[append].
    split; [reflexivity|]. split; [reflexivity|].
    split; [left; now exists data|].
    intros response' data' [= <-] _ Hjson'. rewrite Hjson in Hjson'.
    now injection Hjson' as <-.
Qed.

(** A segment that is [null] cannot be read from: the map throws and the tool
    reports the error. *)
Lemma null_segment_is_an_error (recordingId : JsNumber) (response : HttpResponse)
  (data : JsValue) (before after : list JsValue) :
  ok response = true ->
  json response = Fulfilled data ->
  isTranscriptBody data (before ++ JsNull :: after) ->
  Forall (fun segment => nullish segment = false) before ->
  fathom_get_transcript recordingId (Fulfilled response)
  = {| text := ("Error fetching transcript: "
                ++ readOfNullish "speaker" JsNull)%string;
       structuredContent := None;
       isError := Some true |}.
Proof.
  intros Hok Hjson Hbody Hbefore.
  unfold fathom_get_transcript, transcriptTry. rewrite Hok, Hjson. cbn.
  rewrite (proj2 (recognized_iff data)) by eauto.
  rewrite (read_transcript data _ Hbody).
  now rewrite (mapThrowing_null before after Hbefore).
Qed.

(** The earlier handler took an answer without a transcript for the answer
    to a request with a callback address, and reported no error. *)
Lemma sdk_callback_is_no_error (recordingId : JsNumber)
  (properties : list (JsString * JsValue)) :
  lookup "transcript" properties = None ->
  sdk_fathom_get_transcript recordingId (Fulfilled (JsObject properties))
  = {| text := ("Transcript requested via callback. Response: "
                ++ stringifyValue (JsObject properties))%string;
       structuredContent := None;
       isError := Some false |}.
Proof.
  intros H. unfold sdk_fathom_get_transcript, sdkTranscriptTry. cbn.
  now rewrite H.
Qed.
End TranscriptTheorems.


Lemma unrecognized_transcript_example :
  isError (@fathom_get_transcript plainTranscriptText (numberOfZ 7)
             (Fulfilled (okResponse otherBody))) = Some true /\
  text (@fathom_get_transcript plainTranscriptText (numberOfZ 7)
          (Fulfilled (okResponse otherBody)))
  = "Unexpected response format: {...}".
Proof.
  assert (Hnot : ~ hasTranscriptBody (Fulfilled (okResponse otherBody))).
  { intros (response & data & segments & [= <-] & Hjson & properties & -> & Hl).
    cbn in Hjson. injection Hjson as <-. discriminate. }
  destruct (@unrecognized_transcript_is_an_error plainTranscriptText (numberOfZ 7)
              (Fulfilled (okResponse otherBody)) Hnot)
    as (Herror & _ & _ & Htext).
  split; [exact Herror|].
  exact (Htext (okResponse otherBody) otherBody eq_refl eq_refl eq_refl).
Defined.

(** The earlier handler on the same body: it takes an answer without a
    transcript for the acknowledgement of a callback, hands it on as it is
    and says that nothing went wrong. *)
Lemma sdk_handler_passes_other_bodies_on :
  isError (@sdk_fathom_get_transcript plainTranscriptText (numberOfZ 7)
             (Fulfilled otherBody)) = Some false /\
  text (@sdk_fathom_get_transcript plainTranscriptText (numberOfZ 7)
          (Fulfilled otherBody))
  = "Transcript requested via callback. Response: {...}" /\
  lookup "transcript" [("error", JsStr "not found")] = None.
Proof. repeat split. Qed.

(** The transcript of the example, as the tool returns it. *)
Example transcript_example :
  @fathom_get_transcript plainTranscriptText (numberOfZ 7)
    (Fulfilled (okResponse transcriptBody))
  = {| text := "2";
       structuredContent :=
         Some {| tc_recordingId := numberOfZ 7;
                 tc_transcript :=
                   [ {| speaker := JsStr "Jo";
                        speakerEmail := JsStr "jo@x.com";
                        segmentText := JsStr "Hello";
                        timestamp := JsStr "00:00:01" |};
                     {| speaker := JsStr "Unknown Speaker";
                        speakerEmail := JsNull;
                        segmentText := JsStr "Hi";
                        timestamp := JsStr "00:00:05" |} ];
                 tc_totalSegments := 2 |};
       isError := None |}.
Proof. reflexivity. Qed.

(** A response that is not [ok] is an error whatever its body. *)
Example transcript_http_error_example :
  @fathom_get_transcript plainTranscriptText (numberOfZ 7)
    (Fulfilled {| ok := false; status := 404%N; statusText := "Not Found";
                  json := Fulfilled transcriptBody |})
  = {| text := "Error fetching transcript: Error: HTTP 404: Not Found";
       structuredContent := None;
       isError := Some true |}.
Proof. reflexivity. Qed.

(* ===================================================================== *)
(** ** More about the filter *)
(* ===================================================================== *)

Lemma existsb_map {A B} (f : B -> bool) (g : A -> B) (l : list A) :
  existsb f (List.map g l) = existsb (fun x => f (g x)) l.
Proof.
  induction l as [|x l IH]; cbn; [reflexivity | now rewrite IH].
Qed.

(** The keyword test, list by list. *)
Lemma keywordMatch_lists {SR : StringRuntime} (args : SearchArgs) (m : Meeting) :
  keywordMatch args m =
  match orEmpty (participantKeywords args), orEmpty (titleKeywords args) with
  | [], [] => true
  | participants, titles =>
      existsb (keywordHits m) participants || existsb (keywordHits m) titles
  end.
Proof.
  unfold keywordMatch, allKeywords.
  destruct (orEmpty (participantKeywords args)) as [|p ps],
           (orEmpty (titleKeywords args)) as [|q qs];
    try reflexivity.
  - cbn [app]. now rewrite <- existsb_app.
  - cbn [app]. change (p :: ps ++ q :: qs) with ((p :: ps) ++ q :: qs).
    now rewrite existsb_app.
Qed.

Section MoreFilterTheorems.
Context {SR : StringRuntime} {DR : DateRuntime}.

(** X1.  It makes no difference which of the two lists a keyword is given
    in: with the participant keywords and the title keywords exchanged the
    filter keeps the same meetings. *)
Theorem keyword_lists_interchangeable (args : SearchArgs)
  (allMeetings : list Meeting) :
  filteredMeetings (swapKeywords args) allMeetings
  = filteredMeetings args allMeetings.
Proof.
  unfold filteredMeetings. apply filter_ext. intros m. unfold searchFilter.
  rewrite (dateMatch_dates (swapKeywords args) args m eq_refl eq_refl).
  f_equal. rewrite !keywordMatch_lists.
  cbn [swapKeywords participantKeywords titleKeywords].
  destruct (orEmpty (titleKeywords args)) as [|q qs],
           (orEmpty (participantKeywords args)) as [|p ps];
    try reflexivity; apply orb_comm.
Qed.

(** X2.  Keywords are alternatives: once there is a keyword, giving more
    keywords, with the same dates, loses no meeting. *)
Theorem more_keywords_keep_matches (args args' : SearchArgs) (m : Meeting) :
  allKeywords args <> [] ->
  incl (allKeywords args) (allKeywords args') ->
  startDate args' = startDate args -> endDate args' = endDate args ->
  searchFilter args m = true -> searchFilter args' m = true.
Proof.
  intros Hne Hincl Hs He. unfold searchFilter.
  rewrite (dateMatch_dates args' args m Hs He), !andb_true_iff.
  intros [Hk Hd]. split; [|exact Hd].
  unfold keywordMatch in *.
  destruct (allKeywords args) as [|k ks] eqn:E; [congruence|].
  apply existsb_exists in Hk as (kw & Hin & Hhit).
  assert (Hin' : In kw (allKeywords args')) by now apply Hincl.
  destruct (allKeywords args') as [|k' ks'] eqn:E'; [reflexivity|].
  apply existsb_exists. now exists kw.
Qed.

(** X3.  The case of the keywords is of no account: two searches whose
    keywords are the same once in lower case, with the same dates, keep the
    same meetings. *)
Theorem keyword_case_is_ignored (args args' : SearchArgs)
  (allMeetings : list Meeting) :
  List.map toLowerCase (allKeywords args')
  = List.map toLowerCase (allKeywords args) ->
  startDate args' = startDate args -> endDate args' = endDate args ->
  filteredMeetings args' allMeetings = filteredMeetings args allMeetings.
Proof.
  intros Hk Hs He. unfold filteredMeetings. apply filter_ext. intros m.
  unfold searchFilter. rewrite (dateMatch_dates args' args m Hs He). f_equal.
  assert (Hhits : forall l,
             existsb (keywordHits m) l
             = existsb (fun lower =>
                          truthyOptBool
                            (orElse (foundInParticipants m lower)
                                    (foundInTitle m lower)))
                       (List.map toLowerCase l)).
  { intros l. now rewrite existsb_map. }
  unfold keywordMatch. rewrite !Hhits, Hk.
  destruct (allKeywords args') as [|k' ks'], (allKeywords args) as [|k ks];
    try reflexivity; discriminate.
Qed.

(** X4.  The empty keyword occurs in every string: a search that has it
    among its keywords keeps, of the meetings within the dates, exactly those
    that have a title, a second title, or a participant with a name or an
    email. *)
Theorem empty_keyword_matches_any_field (args : SearchArgs) (m : Meeting) :
  In EmptyString (allKeywords args) ->
  (searchFilter args m = true <->
   hasSearchedField m /\ dateMatch args m = true).
Proof.
  intros Hin. unfold searchFilter. rewrite andb_true_iff.
  assert (Hne : allKeywords args <> []) by (intros E; now rewrite E in Hin).
  rewrite (keywordMatch_iff args m Hne).
  unfold allKeywords in Hin. apply in_app_or in Hin.
  split; intros [H Hd]; (split; [|exact Hd]).
  - destruct H as (kw & field & _ & Hf & _). now exists field.
  - destruct H as [field Hf]. exists EmptyString, field.
    split; [exact Hin|]. split; [exact Hf|].
    apply empty_occursInLowerCase.
Qed.

(** X5.  A meeting with nothing to search in, no title of either kind and no
    participant with a name or an email, is dropped by every search that has
    a keyword, whatever the keyword and the dates. *)
Theorem meeting_without_fields_never_matches (args : SearchArgs) (m : Meeting) :
  allKeywords args <> [] ->
  ~ hasSearchedField m ->
  searchFilter args m = false.
Proof.
  intros Hne Hnone. unfold searchFilter.
  destruct (keywordMatch args m) eqn:Hk; [|reflexivity].
  exfalso. apply Hnone.
  apply (keywordMatch_iff args m Hne) in Hk as (kw & field & _ & Hf & _).
  now exists field.
Qed.

(** X6.  The filter keeps a meeting exactly when the keyword test passes and
    every date that is given (a non-empty string) has a valid bound that the
    meeting's valid scheduled start respects: the start of the start date's
    day at the latest, the end of the end date's day at the earliest.  A
    meeting whose scheduled start is invalid passes only a search without
    dates. *)
Theorem search_filter_date_window (args : SearchArgs) (m : Meeting) :
  (searchFilter args m = true <->
   keywordMatch args m = true /\ dateCriterion args m) /\
  (scheduledStartTime m = None ->
   searchFilter args m
   = keywordMatch args m
     && match truthyString (startDate args), truthyString (endDate args) with
        | None, None => true
        | _, _ => false
        end).
Proof.
  split.
  - unfold searchFilter. now rewrite andb_true_iff, dateMatch_iff.
  - intros Hinvalid. rewrite searchFilter_parts. f_equal.
    unfold startMatch, endMatch. rewrite Hinvalid.
    destruct (truthyString (startDate args)), (truthyString (endDate args));
      reflexivity.
Qed.

(** X7.  A range whose end lies before its start keeps nothing. *)
Theorem inverted_date_range_is_empty (args : SearchArgs)
  (s e : JsString) (b1 b2 : Z) (allMeetings : list Meeting) :
  truthyString (startDate args) = Some s -> startOfDay s = Some b1 ->
  truthyString (endDate args) = Some e -> endOfDay e = Some b2 ->
  b2 < b1 ->
  filteredMeetings args allMeetings = [].
Proof.
  intros Hs Hb1 He Hb2 Hlt. apply filter_nothing. intros m.
  rewrite searchFilter_parts. unfold startMatch, endMatch.
  rewrite Hs, He, Hb1, Hb2.
  destruct (scheduledStartTime m) as [ts|]; cbn; [|apply andb_false_r].
  destruct (Z.leb_spec b1 ts), (Z.leb_spec ts b2);
    cbn; try apply andb_false_r. lia.
Qed.

(** X8.  In a zone with a fixed offset the start and the end of a date's day
    are a day less a millisecond apart and have the instant of the date
    between them: with the same date for start and end, a meeting that starts
    at that very instant passes the date test. *)
Theorem same_day_range_contains_the_date (offset : Z) (args : SearchArgs)
  (s : JsString) (t b1 b2 : Z) (m : Meeting) :
  fixedOffset offset ->
  Date_parse s = Some t ->
  startOfDay s = Some b1 -> endOfDay s = Some b2 ->
  b2 = b1 + (msPerDay - 1) /\
  b1 <= t <= b2 /\
  (startDate args = Some s -> endDate args = Some s ->
   scheduledStartTime m = Some t -> dateMatch args m = true).
Proof.
  intros Hzone Hp Hb1 Hb2.
  unfold startOfDay in Hb1. unfold endOfDay in Hb2. rewrite Hp in Hb1, Hb2.
  pose proof (setHours_valid _ _ _ _ _ _ Hb1) as E1.
  pose proof (setHours_valid _ _ _ _ _ _ Hb2) as E2.
  unfold UTC, LocalTime in E1, E2. rewrite !Hzone in E1, E2.
  change (MakeTime 0 0 0 0) with 0 in E1.
  change (MakeTime 23 59 59 999) with (msPerDay - 1) in E2.
  unfold MakeDate, Day in E1, E2.
  assert (Hpos : 0 < msPerDay) by reflexivity.
  pose proof (Z.mul_div_le (t + offset) msPerDay Hpos) as Hlow.
  pose proof (Z.mul_succ_div_gt (t + offset) msPerDay Hpos) as Hhigh.
  assert (Hrange : b2 = b1 + (msPerDay - 1) /\ b1 <= t <= b2) by lia.
  destruct Hrange as [Hb Hin]. split; [exact Hb|]. split; [exact Hin|].
  intros Hs He Hm. rewrite dateMatch_bounds. unfold startMatch, endMatch.
  rewrite (truthyString_valid _ _ _ Hs Hp), (truthyString_valid _ _ _ He Hp).
  unfold startOfDay, endOfDay. rewrite Hp, Hb1, Hb2, Hm. cbn.
  apply andb_true_iff. split; apply Z.leb_le; lia.
Qed.
End MoreFilterTheorems.

Lemma keyword_lists_interchangeable_example :
  @filteredMeetings asciiAndGreek (isoDatesAt 0)
    (swapKeywords (searchArgs ["sam@"] ["retro"] None None))
    [standup; planning] = [planning].
Proof.
  rewrite (@keyword_lists_interchangeable asciiAndGreek (isoDatesAt 0)).
      reflexivity.
Defined.

Lemma more_keywords_keep_matches_example :
  allKeywords (searchArgs ["retro"] ["stand"] None None) <> [] /\
  incl (allKeywords (searchArgs ["retro"] ["stand"] None None))
       (allKeywords (searchArgs ["retro"; "plan"] ["stand"] None None)) /\
  @searchFilter asciiAndGreek (isoDatesAt 0)
      (searchArgs ["retro"] ["stand"] None None)
    standup = true /\
  @searchFilter asciiAndGreek (isoDatesAt 0)
      (searchArgs ["retro"; "plan"] ["stand"] None None)
    standup = true.
Proof.
  assert (Hincl : incl (allKeywords (searchArgs ["retro"] ["stand"] None None))
                       (allKeywords (searchArgs ["retro"; "plan"] ["stand"]
                                                None None))).
  { intros k [<- | [<- | []]]; cbn; auto. }
  split; [discriminate|]. split; [exact Hincl|]. split; [reflexivity|].
  apply (@more_keywords_keep_matches asciiAndGreek (isoDatesAt 0)
           (searchArgs ["retro"] ["stand"] None None)
           (searchArgs ["retro"; "plan"] ["stand"] None None) standup);
    [discriminate | exact Hincl | reflexivity | reflexivity | reflexivity].
Defined.

Lemma keyword_case_is_ignored_example :
  @filteredMeetings asciiAndGreek (isoDatesAt 0)
      (searchArgs ["SAM@X.COM"] [] None None)
    [standup; planning]
  = @filteredMeetings asciiAndGreek (isoDatesAt 0)
      (searchArgs [] ["sam@x.com"] None None)
      [standup; planning].
Proof.
  apply (@keyword_case_is_ignored asciiAndGreek (isoDatesAt 0)); reflexivity.
Defined.

Lemma empty_keyword_matches_any_field_example :
  In EmptyString (allKeywords (searchArgs [EmptyString] [] None None)) /\
  hasSearchedField standup /\
  @searchFilter asciiAndGreek (isoDatesAt 0)
      (searchArgs [EmptyString] [] None None) standup
  = true.
Proof.
  assert (Hin : In EmptyString
                   (allKeywords (searchArgs [EmptyString] [] None None)))
    by (left; reflexivity).
  assert (Hfield : hasSearchedField standup)
    by (exists "Standup"; right; left; reflexivity).
  split; [exact Hin|]. split; [exact Hfield|].
  apply (@empty_keyword_matches_any_field asciiAndGreek (isoDatesAt 0)
      _ standup Hin).
  split; [exact Hfield | reflexivity].
Defined.

Lemma meeting_without_fields_example :
  allKeywords (searchArgs [EmptyString] ["a"] None None) <> [] /\
  ~ hasSearchedField (meetingAt 0) /\
  @searchFilter asciiAndGreek (isoDatesAt 0)
      (searchArgs [EmptyString] ["a"] None None)
    (meetingAt 0) = false.
Proof.
  assert (Hnone : ~ hasSearchedField (meetingAt 0)).
  { intros [field [(invitees & invitee & H & _) | [H | H]]]; discriminate. }
  split; [discriminate|]. split; [exact Hnone|].
  apply (@meeting_without_fields_never_matches asciiAndGreek (isoDatesAt 0));
    [discriminate | exact Hnone].
Defined.

Lemma search_filter_date_window_example :
  @searchFilter asciiAndGreek (isoDatesAt 0)
    (searchArgs [] [] (Some "2024-01-01") (Some "2024-01-05")) standup = true /\
  @dateCriterion (isoDatesAt 0)
    (searchArgs [] [] (Some "2024-01-01") (Some "2024-01-05")) standup.
Proof.
  split; [reflexivity|].
  apply (proj1 (@search_filter_date_window asciiAndGreek (isoDatesAt 0)
                  (searchArgs [] [] (Some "2024-01-01") (Some "2024-01-05"))
                  standup)).
  reflexivity.
Defined.

Lemma inverted_date_range_example :
  @startOfDay (isoDatesAt 0) "2024-01-05" = Some 1704412800000 /\
  @endOfDay (isoDatesAt 0) "2024-01-01" = Some 1704153599999 /\
  @filteredMeetings asciiAndGreek (isoDatesAt 0)
    (searchArgs [] [] (Some "2024-01-05") (Some "2024-01-01"))
    [standup; planning] = [].
Proof.
  split; [reflexivity|]. split; [reflexivity|].
  apply (@inverted_date_range_is_empty asciiAndGreek (isoDatesAt 0)
           (searchArgs [] [] (Some "2024-01-05") (Some "2024-01-01"))
           "2024-01-05" "2024-01-01" 1704412800000 1704153599999);
    reflexivity.
Defined.

Lemma same_day_range_example :
  @fixedOffset (isoDatesAt 3600000) 3600000 /\
  1704149999999 = 1704063600000 + (msPerDay - 1) /\
  1704063600000 <= 1704067200000 <= 1704149999999 /\
  @dateMatch (isoDatesAt 3600000)
    (searchArgs [] [] (Some "2024-01-01") (Some "2024-01-01"))
    (meetingAt 1704067200000) = true.
Proof.
  assert (Hzone : @fixedOffset (isoDatesAt 3600000) 3600000)
    by (intros t isUTC; reflexivity).
  destruct (@same_day_range_contains_the_date (isoDatesAt 3600000) 3600000
              (searchArgs [] [] (Some "2024-01-01") (Some "2024-01-01"))
              "2024-01-01" 1704067200000 1704063600000 1704149999999
              (meetingAt 1704067200000) Hzone eq_refl eq_refl eq_refl)
    as (Hb & Hin & Hm).
  split; [exact Hzone|]. split; [exact Hb|]. split; [exact Hin|].
  exact (Hm eq_refl eq_refl eq_refl).
Defined.

(* ===================================================================== *)
(** ** More about the aggregator and the tools on it *)
(* ===================================================================== *)

Lemma no_stop_all_continue (pages : list Page) :
  existsb (fun p => negb (continues p)) pages = false ->
  forallb continues pages = true.
Proof.
  induction pages as [|p pages IH]; cbn; [reflexivity|].
  destruct (continues p); cbn; [exact IH | discriminate].
Qed.

(** While every answer hands out a cursor the loop asks on; when the answers
    run out it is still waiting. *)
Lemma loop_never_returns (s t : bool) (pages : list Page) :
  forall v recv x,
    var_hasMorePages v = true ->
    forallb continues pages = true ->
    ~ Leaf x (runWith (fetchAllMeetingsFrom s t v)
                      {| answers := pages; received := recv |}).
Proof.
  induction pages as [|p pages IH]; intros v recv x Hm Hall Hleaf.
  - unfold runWith, fetchAllMeetingsFrom in Hleaf.
    rewrite unfold_iter in Hleaf. unfold loopTurn at 1 in Hleaf.
    rewrite Hm, bind_bind, interp_state_bind, interp_state_trigger in Hleaf.
    apply Leaf_bind_inv in Hleaf as (y & Hspin & _).
    cbn in Hspin. now apply Leaf_spin in Hspin.
  - cbn in Hall. apply andb_true_iff in Hall as [Hp Hall].
    destruct p as [r|e]; cbn in Hp; [|discriminate].
    rewrite loop_page_arrived in Hleaf by assumption.
    exact (IH (pageArrived v r) _ x Hp Hall Hleaf).
Qed.

(** X9.  [fetchAllMeetings] returns only at a page that failed or had no
    cursor, having asked for that page and for all the pages before it, which
    had cursors, and for nothing else.  So a result without the error flag is
    complete: it holds the items of every page up to one that handed out no
    cursor. *)
Theorem fetchAllMeetings_returns_only_at_a_stop (s t : bool)
  (pages : list Page) (u' : Upstream) (aggregate : Aggregate) :
  runWith (fetchAllMeetings s t) {| answers := pages; received := [] |}
  ≈ Ret (u', aggregate) ->
  exists before last after,
    pages = before ++ last :: after /\
    forallb continues before = true /\
    continues last = false /\
    answers u' = after /\
    length (received u') = length (before ++ [last]) /\
    meetings aggregate = concat (List.map pageItems (before ++ [last])) /\
    hadError aggregate = negb (isFulfilled last) /\
    (hadError aggregate = false -> pageCursor last = None \/
                                   pageCursor last = Some EmptyString).
Proof.
  intros Hrun.
  destruct (existsb (fun p => negb (continues p)) pages) eqn:Hstop.
  - destruct (first_stop pages Hstop) as (before & last & after & -> & Hb & Hl).
    rewrite (fetchAllMeetings_runs s t before last after Hb Hl) in Hrun.
    apply eutt_inv_Ret in Hrun. injection Hrun as <- <-.
    exists before, last, after. cbn.
    split; [reflexivity|]. split; [exact Hb|]. split; [exact Hl|].
    split; [reflexivity|]. split; [apply length_requestsSent|].
    split; [reflexivity|]. split; [reflexivity|].
    intros Hok. destruct last as [r|e]; [|discriminate]. cbn in Hl |- *.
    unfold truthyCursor, truthyString in Hl.
    destruct (nextCursor r) as [c|]; [|now left].
    destruct (String.eqb_spec c EmptyString) as [E|E];
      [right; now rewrite E | discriminate].
  - exfalso.
    apply (loop_never_returns s t pages initialVars [] (u', aggregate)
             eq_refl (no_stop_all_continue pages Hstop)).
    unfold fetchAllMeetings in Hrun. rewrite Hrun. apply Leaf_Ret.
Qed.

Lemma fetchAllMeetings_returns_example :
  runWith (fetchAllMeetings true false)
          {| answers := [Fulfilled page1; Fulfilled page3; Rejected "late"];
             received := [] |}
  ≈ Ret ({| answers := [Rejected "late"];
            received := requestsSent true false (Some EmptyString)
                          [Fulfilled page1; Fulfilled page3] |},
         {| meetings := [standup; planning; standup]; hadError := false |})
  /\
  exists before last after,
    [Fulfilled page1; Fulfilled page3; Rejected "late"]
    = before ++ last :: after /\
    forallb continues before = true /\
    continues last = false /\
    [Rejected "late"] = after /\
    2%nat = length (before ++ [last]) /\
    [standup; planning; standup]
    = concat (List.map pageItems (before ++ [last])) /\
    false = negb (isFulfilled last) /\
    (false = false -> pageCursor last = None \/
                      pageCursor last = Some EmptyString).
Proof.
  pose proof (fetchAllMeetings_runs true false [Fulfilled page1]
                (Fulfilled page3) [Rejected "late"] eq_refl eq_refl) as Hrun.
  split; [exact Hrun|].
  exact (fetchAllMeetings_returns_only_at_a_stop true false _ _ _ Hrun).
Defined.

Lemma filter_concat {A} (f : A -> bool) (ls : list (list A)) :
  filter f (concat ls) = concat (List.map (filter f) ls).
Proof.
  induction ls as [|l ls IH]; cbn; [reflexivity|].
  now rewrite filter_app, IH.
Qed.

Section MoreSearchTheorems.
Context {SR : StringRuntime} {DR : DateRuntime} {MT : MeetingText}.

(** X10.  The structured content of a search is consistent with itself: the
    count is the number of meetings listed, which are the formatted meetings
    that pass the filter, in their order, and are no more than were
    aggregated; the invitation to ask for a summary or a transcript is there
    exactly when a meeting is listed, and then also ends the text; the error
    flag is the aggregator's. *)
Theorem search_result_is_consistent (args : SearchArgs) (aggregate : Aggregate) :
  exists content prompt,
    structuredContent (searchResult args aggregate) = Some content /\
    sc_meetings content
    = List.map formatMeeting (filteredMeetings args (meetings aggregate)) /\
    sc_count content = length (sc_meetings content) /\
    (sc_count content <= length (meetings aggregate))%nat /\
    sc_elicitationPrompt content = Some prompt /\
    (prompt = EmptyString <-> sc_count content = 0%nat) /\
    (prompt = EmptyString \/ prompt = elicitationText) /\
    text (searchResult args aggregate)
    = (stringifyMeetings (sc_meetings content) ++ prompt)%string /\
    isError (searchResult args aggregate) = Some (hadError aggregate).
Proof.
  unfold searchResult.
  set (formatted := List.map formatMeeting
                      (filteredMeetings args (meetings aggregate))).
  exists {| sc_meetings := formatted;
            sc_count := length formatted;
            sc_elicitationPrompt :=
              Some (if negb (Nat.eqb (length formatted) 0)
                    then elicitationText else EmptyString) |},
         (if negb (Nat.eqb (length formatted) 0)
          then elicitationText else EmptyString).
  cbn -[elicitationText append].
  split; [reflexivity|]. split; [reflexivity|]. split; [reflexivity|].
  split.
  { unfold formatted, filteredMeetings. rewrite length_map.
    apply filter_length_le. }
  split; [reflexivity|]. split.
  { destruct (Nat.eqb_spec (length formatted) 0) as [E|E]; cbn -[elicitationText].
    - now split.
    - split; [discriminate | intros H; contradiction]. }
  split.
  { destruct (Nat.eqb (length formatted) 0); cbn -[elicitationText]; auto. }
  split; reflexivity.
Qed.

(** X11.  Searching the pages one by one gives what searching their
    concatenation gives: the meetings the tool lists after a run over several
    pages are, page after page, the formatted meetings of each page that pass
    the filter. *)
Theorem search_goes_page_by_page (args : SearchArgs)
  (before : list Page) (last : Page) (after : list Page) :
  forallb continues before = true ->
  continues last = false ->
  exists u' result content,
    runWith (search_meetings args)
            {| answers := before ++ last :: after; received := [] |}
    ≈ Ret (u', result) /\
    structuredContent result = Some content /\
    sc_meetings content
    = concat (List.map (fun page =>
                          List.map formatMeeting
                                   (filteredMeetings args (pageItems page)))
                       (before ++ [last])) /\
    isError result = Some (negb (isFulfilled last)).
Proof.
  intros Hb Hl.
  destruct (search_result_is_consistent args
              {| meetings := concat (List.map pageItems (before ++ [last]));
                 hadError := negb (isFulfilled last) |})
    as (content & prompt & Hc & Hm & _ & _ & _ & _ & _ & _ & He).
  eexists _, _, content.
  split; [exact (search_meetings_runs args before last after Hb Hl)|].
  split; [exact Hc|]. split; [|exact He].
  rewrite Hm. cbn [meetings]. unfold filteredMeetings.
  rewrite filter_concat, concat_map, !List.map_map. reflexivity.
Qed.

(** X12.  When the request for a page fails, [search_meetings] still answers,
    with the error flag set and with the meetings of the pages before it that
    pass the filter. *)
Theorem search_meetings_reports_partial_results (args : SearchArgs)
  (earlier : list ListMeetingsResult) (error : JsError) (later : list Page) :
  forallb (fun r => truthyCursor (nextCursor r)) earlier = true ->
  exists u' result content,
    runWith (search_meetings args)
            {| answers := List.map Fulfilled earlier ++ Rejected error :: later;
               received := [] |}
    ≈ Ret (u', result) /\
    answers u' = later /\
    isError result = Some true /\
    structuredContent result = Some content /\
    sc_meetings content
    = List.map formatMeeting
               (filteredMeetings args (concat (List.map items earlier))).
Proof.
  intros He.
  assert (Hb : forallb continues (List.map Fulfilled earlier) = true)
    by now rewrite forallb_continues_fulfilled.
  pose proof (search_meetings_runs args (List.map Fulfilled earlier)
                (Rejected error) later Hb eq_refl) as Hrun.
  assert (Hitems : concat (List.map pageItems
                             (List.map Fulfilled earlier ++ [Rejected error]))
                   = concat (List.map items earlier)).
  { rewrite List.map_app, concat_app, pageItems_fulfilled. cbn.
    now rewrite app_nil_r. }
  destruct (search_result_is_consistent args
              {| meetings :=
                   concat (List.map pageItems
                             (List.map Fulfilled earlier ++ [Rejected error]));
                 hadError :=
                   negb (isFulfilled (@Rejected ListMeetingsResult error)) |})
    as (content & prompt & Hc & Hm & _ & _ & _ & _ & _ & _ & Herr).
  eexists _, _, content.
  split; [exact Hrun|]. split; [reflexivity|].
  split; [exact Herr|]. split; [exact Hc|].
  rewrite Hm. cbn [meetings]. now rewrite Hitems.
Qed.
End MoreSearchTheorems.

Lemma search_goes_page_by_page_example :
  forallb continues [Fulfilled page1; Fulfilled page2] = true /\
  continues (Fulfilled page3) = false /\
  exists u' result content,
    runWith (@search_meetings asciiAndGreek (isoDatesAt 0) plainMeetingText
               (searchArgs [] ["standup"] None None))
            {| answers := [Fulfilled page1; Fulfilled page2] ++
                          Fulfilled page3 :: [];
               received := [] |}
    ≈ Ret (u', result) /\
    structuredContent result = Some content /\
    sc_meetings content
    = concat (List.map (fun page =>
                          List.map (@formatMeeting plainMeetingText)
                            (@filteredMeetings asciiAndGreek (isoDatesAt 0)
                               (searchArgs [] ["standup"] None None)
                               (pageItems page)))
                       ([Fulfilled page1; Fulfilled page2] ++ [Fulfilled page3])) /\
    isError result = Some (negb (isFulfilled (Fulfilled page3))).
Proof.
  split; [reflexivity|]. split; [reflexivity|].
  exact (@search_goes_page_by_page asciiAndGreek (isoDatesAt 0) plainMeetingText
           (searchArgs [] ["standup"] None None)
           [Fulfilled page1; Fulfilled page2] (Fulfilled page3) []
           eq_refl eq_refl).
Defined.

Lemma search_meetings_partial_results_example :
  forallb (fun r => truthyCursor (nextCursor r)) [page1; page2] = true /\
  exists u' result content,
    runWith (@search_meetings asciiAndGreek (isoDatesAt 0) plainMeetingText
               (searchArgs [] ["standup"] None None))
            {| answers := List.map Fulfilled [page1; page2] ++
                          Rejected "Error: 503" :: [Fulfilled page3];
               received := [] |}
    ≈ Ret (u', result) /\
    answers u' = [Fulfilled page3] /\
    isError result = Some true /\
    structuredContent result = Some content /\
    sc_meetings content
    = List.map (@formatMeeting plainMeetingText)
        (@filteredMeetings asciiAndGreek (isoDatesAt 0)
            (searchArgs [] ["standup"] None None)
           (concat (List.map items [page1; page2]))).
Proof.
  split; [reflexivity|].
  exact (@search_meetings_reports_partial_results asciiAndGreek (isoDatesAt 0)
           plainMeetingText (searchArgs [] ["standup"] None None)
           [page1; page2] "Error: 503" [Fulfilled page3] eq_refl).
Defined.

(* ===================================================================== *)
(** ** The earlier [filter_all_meetings] tool *)
(* ===================================================================== *)

(** X13.  The filter of the earlier [filter_all_meetings] is the filter of
    [search_meetings] with the same keywords and no dates: on every
    collection the two keep the same meetings. *)
Theorem filter_all_is_search_without_dates {SR : StringRuntime}
  {DR : DateRuntime} (args : FilterAllArgs) (allMeetings : list Meeting) :
  filter (filterAllFilter args) allMeetings
  = filteredMeetings (searchArgsOf args) allMeetings.
Proof.
  unfold filteredMeetings. apply filter_ext. intros m.
  unfold searchFilter, dateMatch, keywordMatch, filterAllFilter.
  cbn [searchArgsOf startDate endDate truthyString]. rewrite andb_true_r.
  change (allKeywords (searchArgsOf args)) with (filterAllKeywords args).
  now destruct (filterAllKeywords args).
Qed.

(** X14.  [filter_all_meetings] runs the aggregator with the two flags of its
    own arguments: every request it ever sends carries them, and a run that
    returns has added to the service's log requests with those flags only. *)
Theorem filter_all_meetings_passes_its_flags {SR : StringRuntime}
  (args : FilterAllArgs) :
  everyRequest (flagsOf args) (filterAllSelection args) /\
  (forall u u' selection,
      runWith (filterAllSelection args) u ≈ Ret (u', selection) ->
      onlyAdds (flagsOf args) u u').
Proof.
  split.
  - apply (fetchAllMeetings_passes_flags
             (fa_includeSummary args) (fa_includeTranscript args) _
             (fun aggregate =>
                (filter (filterAllFilter args) (meetings aggregate),
                 hadError aggregate))).
  - intros u u' selection Hrun.
    assert (Hleaf : Leaf (u', selection) (runWith (filterAllSelection args) u)).
    { rewrite Hrun. apply Leaf_Ret. }
    unfold filterAllSelection in Hleaf. rewrite runWith_bind in Hleaf.
    apply Leaf_bind_inv in Hleaf as ([u1 a] & Hfetch & Hret).
    cbn in Hret. rewrite runWith_ret in Hret.
    apply Leaf_Ret_inv in Hret. injection Hret as Eu _. subst u1.
    exact (requests_of_a_run_that_returns _ _ initialVars u u' a Hfetch).
Qed.

(* ===================================================================== *)
(** ** More about the transcript tool *)
(* ===================================================================== *)

Lemma isTranscriptBody_unique (data : JsValue) (s1 s2 : list JsValue) :
  isTranscriptBody data s1 -> isTranscriptBody data s2 -> s1 = s2.
Proof.
  intros (p1 & -> & H1) (p2 & [= <-] & H2). congruence.
Qed.

(** The map over the segments either formats them all or throws, and it
    throws exactly when a segment cannot be read from. *)
Lemma mapThrowing_cases (segments : list JsValue) :
  (readableSegments segments /\
   mapThrowing formatSegment segments
   = Fulfilled (List.map segmentShape segments)) \/
  (~ readableSegments segments /\
   exists e, mapThrowing formatSegment segments = Rejected e).
Proof.
  unfold readableSegments.
  induction segments as [|segment segments IH].
  - left. split; [constructor | reflexivity].
  - cbn [mapThrowing]. unfold formatSegment at 1 3.
    destruct (nullish segment) eqn:Hs.
    + right. split; [|eauto].
      intros H. inversion H; subst. congruence.
    + destruct IH as [[Hr ->] | [Hn [e ->]]].
      * left. split; [now constructor | reflexivity].
      * right. split; [|eauto]. intros H. inversion H; subst. auto.
Qed.

Section MoreTranscriptTheorems.
Context {TT : TranscriptText}.

(** X15.  [fathom_get_transcript] has two outcomes and no third.  It succeeds,
    with no error flag and with the formatted transcript as structured
    content, exactly when the fetch was answered, the response was [ok], its
    body parsed to an object containing a transcript array, and no segment of
    the array is [null].  In every other case the error flag is set and there
    is no structured content; the flag is never [false]. *)
Theorem transcript_succeeds_exactly_when (recordingId : JsNumber)
  (fetched : Settled HttpResponse) :
  (isError (fathom_get_transcript recordingId fetched) = None <->
   exists response data segments,
     fetched = Fulfilled response /\ ok response = true /\
     json response = Fulfilled data /\
     isTranscriptBody data segments /\ readableSegments segments) /\
  (isError (fathom_get_transcript recordingId fetched) = None ->
   exists formatted,
     structuredContent (fathom_get_transcript recordingId fetched)
     = Some {| tc_recordingId := recordingId;
               tc_transcript := formatted;
               tc_totalSegments := length formatted |}) /\
  (isError (fathom_get_transcript recordingId fetched) = None \/
   isError (fathom_get_transcript recordingId fetched) = Some true /\
   structuredContent (fathom_get_transcript recordingId fetched) = None).
Proof.
  unfold fathom_get_transcript, transcriptTry.
  destruct fetched as [response|e]; cbn -[append].
  2:{ split; [|split]; [| discriminate | right; split; reflexivity].
      split; [discriminate | intros (? & ? & ? & [=] & _)]. }
  destruct (ok response) eqn:Hok; cbn -[append].
  2:{ split; [|split]; [| discriminate | right; split; reflexivity].
      split; [discriminate|].
      intros (r & ? & ? & [= <-] & Hok' & _). congruence. }
  destruct (json response) as [data|e] eqn:Hjson; cbn -[append].
  2:{ split; [|split]; [| discriminate | right; split; reflexivity].
      split; [discriminate|].
      intros (r & ? & ? & [= <-] & _ & Hjson' & _). congruence. }
  destruct (truthy data && typeofObject data && hasProperty "transcript" data
            && isArray (read "transcript" data)) eqn:Hshape; cbn -[append].
  2:{ split; [|split]; [| discriminate | right; split; reflexivity].
      split; [discriminate|].
      intros (r & d & segments & [= <-] & _ & Hjson' & Hbody & _).
      rewrite Hjson in Hjson'. injection Hjson' as <-.
      assert (Hrec : exists segments, isTranscriptBody data segments) by eauto.
      apply recognized_iff in Hrec. congruence. }
  apply recognized_iff in Hshape as (segments & Hbody).
  rewrite (read_transcript data segments Hbody).
  destruct (mapThrowing_cases segments) as [[Hr ->] | [Hn [e ->]]];
    cbn -[append].
  - split; [|split]; [| intros _; eexists; reflexivity | now left].
    split; [|reflexivity]. intros _. now exists response, data, segments.
  - split; [|split]; [| discriminate | right; split; reflexivity].
    split; [discriminate|].
    intros (r & d & segments' & [= <-] & _ & Hjson' & Hbody' & Hr').
    rewrite Hjson in Hjson'. injection Hjson' as <-.
    now rewrite (isTranscriptBody_unique data segments segments' Hbody Hbody')
      in Hn.
Qed.

(** X16.  On an object containing a transcript array the handler over HTTP,
    given an [ok] response with that body, and the earlier handler, given
    that object by the SDK, return the same result, be it the formatted
    transcript or the error of a segment that cannot be read from. *)
Theorem transcript_handlers_agree_on_transcripts (recordingId : JsNumber)
  (status' : N) (statusText' : JsString)
  (data : JsValue) (segments : list JsValue) :
  isTranscriptBody data segments ->
  sdk_fathom_get_transcript recordingId (Fulfilled data)
  = fathom_get_transcript recordingId
      (Fulfilled {| ok := true; status := status';
                    statusText := statusText';
                    json := Fulfilled data |}).
Proof.
  intros Hbody.
  unfold sdk_fathom_get_transcript, sdkTranscriptTry,
         fathom_get_transcript, transcriptTry.
  cbn [ok json negb].
  rewrite (proj2 (recognized_iff data)) by eauto.
  rewrite (read_transcript data segments Hbody).
  destruct Hbody as (properties & -> & Hlookup).
  cbn [truthy inOperator hasProperty]. rewrite Hlookup.
  reflexivity.
Qed.

(** X17.  On an object whose transcript is missing or falsy the two handlers
    part: the earlier one takes it for the answer to a request with a
    callback address and reports no error, the handler over HTTP reports an
    unexpected response format, with the error flag set. *)
Theorem transcript_handlers_differ_without_transcript (recordingId : JsNumber)
  (status' : N) (statusText' : JsString)
  (properties : list (JsString * JsValue)) :
  truthy (read "transcript" (JsObject properties)) = false ->
  sdk_fathom_get_transcript recordingId (Fulfilled (JsObject properties))
  = {| text := ("Transcript requested via callback. Response: "
                ++ stringifyValue (JsObject properties))%string;
       structuredContent := None;
       isError := Some false |} /\
  fathom_get_transcript recordingId
    (Fulfilled {| ok := true; status := status';
                  statusText := statusText';
                  json := Fulfilled (JsObject properties) |})
  = {| text := ("Unexpected response format: "
                ++ stringifyValue (JsObject properties))%string;
       structuredContent := None;
       isError := Some true |}.
Proof.
  intros Hfalsy. split.
  - unfold sdk_fathom_get_transcript, sdkTranscriptTry.
    cbn [truthy inOperator hasProperty].
    destruct (lookup "transcript" properties) eqn:E; [|reflexivity].
    now rewrite Hfalsy.
  - unfold fathom_get_transcript, transcriptTry. cbn [ok json negb].
    assert (Harray : isArray (read "transcript" (JsObject properties)) = false).
    { destruct (read "transcript" (JsObject properties)); try reflexivity.
      discriminate. }
    now rewrite Harray, andb_false_r.
Qed.
End MoreTranscriptTheorems.

Lemma filter_all_is_search_example :
  filter (@filterAllFilter asciiAndGreek
            {| fa_participantKeywords := Some ["sam@"];
               fa_titleKeywords := None;
               fa_includeSummary := true;
               fa_includeTranscript := false |})
         [standup; planning] = [planning].
Proof.
  rewrite (@filter_all_is_search_without_dates asciiAndGreek (isoDatesAt 0)).
      reflexivity.
Defined.

Lemma transcript_handlers_agree_example :
  isTranscriptBody transcriptBody [segment1; segment2] /\
  @sdk_fathom_get_transcript plainTranscriptText (numberOfZ 7)
    (Fulfilled transcriptBody)
  = @fathom_get_transcript plainTranscriptText (numberOfZ 7)
      (Fulfilled (okResponse transcriptBody)).
Proof.
  assert (Hbody : isTranscriptBody transcriptBody [segment1; segment2]).
  { eexists. split; reflexivity. }
  split; [exact Hbody|].
  exact (@transcript_handlers_agree_on_transcripts plainTranscriptText
           (numberOfZ 7) 200%N "OK" transcriptBody [segment1; segment2] Hbody).
Defined.

Lemma transcript_handlers_differ_example :
  truthy (read "transcript" otherBody) = false /\
  isError (@sdk_fathom_get_transcript plainTranscriptText (numberOfZ 7)
             (Fulfilled otherBody)) = Some false /\
  isError (@fathom_get_transcript plainTranscriptText (numberOfZ 7)
             (Fulfilled (okResponse otherBody))) = Some true.
Proof.
  split; [reflexivity|].
  destruct (@transcript_handlers_differ_without_transcript plainTranscriptText
              (numberOfZ 7) 200%N "OK" [("error", JsStr "not found")] eq_refl)
    as [Hsdk Hhttp].
  split.
  - unfold otherBody. rewrite Hsdk. reflexivity.
  - unfold okResponse, otherBody. rewrite Hhttp. reflexivity.
Defined.

Lemma search_result_is_consistent_example :
  exists content prompt,
    structuredContent
      (@searchResult asciiAndGreek (isoDatesAt 0) plainMeetingText
         (searchArgs [] ["nothing"] None None)
         {| meetings := [standup; planning]; hadError := true |})
    = Some content /\
    sc_meetings content
    = List.map (@formatMeeting plainMeetingText)
        (@filteredMeetings asciiAndGreek (isoDatesAt 0)
            (searchArgs [] ["nothing"] None None)
           [standup; planning]) /\
    sc_count content = length (sc_meetings content) /\
    (sc_count content <= 2)%nat /\
    sc_elicitationPrompt content = Some prompt /\
    (prompt = EmptyString <-> sc_count content = 0%nat) /\
    (prompt = EmptyString \/ prompt = elicitationText) /\
    text (@searchResult asciiAndGreek (isoDatesAt 0) plainMeetingText
            (searchArgs [] ["nothing"] None None)
            {| meetings := [standup; planning]; hadError := true |})
    = (plainMeetings (sc_meetings content) ++ prompt)%string /\
    isError (@searchResult asciiAndGreek (isoDatesAt 0) plainMeetingText
               (searchArgs [] ["nothing"] None None)
               {| meetings := [standup; planning]; hadError := true |})
    = Some true.
Proof.
  exact (@search_result_is_consistent asciiAndGreek (isoDatesAt 0)
      plainMeetingText
           (searchArgs [] ["nothing"] None None)
           {| meetings := [standup; planning]; hadError := true |}).
Defined.

(** Asked for summaries, the tool asks the service for summaries, page after
    page. *)
Lemma filter_all_meetings_flags_example :
  runWith (@filterAllSelection asciiAndGreek
             {| fa_participantKeywords := None;
                fa_titleKeywords := Some ["plan"];
                fa_includeSummary := true;
                fa_includeTranscript := false |})
          {| answers := [Fulfilled page1; Fulfilled page3]; received := [] |}
  ≈ Ret ({| answers := [];
            received := [ {| cursor := Some EmptyString;
                             includeSummary := true;
                             includeTranscript := false |};
                          {| cursor := Some "c1";
                             includeSummary := true;
                             includeTranscript := false |} ] |},
         ([planning], false))
  /\
  onlyAdds (flagsOf {| fa_participantKeywords := None;
                       fa_titleKeywords := Some ["plan"];
                       fa_includeSummary := true;
                       fa_includeTranscript := false |})
    {| answers := [Fulfilled page1; Fulfilled page3]; received := [] |}
    {| answers := [];
       received := [ {| cursor := Some EmptyString;
                        includeSummary := true;
                        includeTranscript := false |};
                     {| cursor := Some "c1";
                        includeSummary := true;
                        includeTranscript := false |} ] |}.
Proof.
  assert (Hrun :
    runWith (@filterAllSelection asciiAndGreek
               {| fa_participantKeywords := None;
                  fa_titleKeywords := Some ["plan"];
                  fa_includeSummary := true;
                  fa_includeTranscript := false |})
            {| answers := [Fulfilled page1; Fulfilled page3]; received := [] |}
    ≈ Ret ({| answers := [];
              received := [ {| cursor := Some EmptyString;
                               includeSummary := true;
                               includeTranscript := false |};
                            {| cursor := Some "c1";
                               includeSummary := true;
                               includeTranscript := false |} ] |},
           ([planning], false))).
  { unfold filterAllSelection. cbn [fa_includeSummary fa_includeTranscript].
    rewrite runWith_bind,
      (fetchAllMeetings_runs true false [Fulfilled page1] (Fulfilled page3) []
         eq_refl eq_refl).
    rewrite bind_ret_l. cbn. apply runWith_ret. }
  split; [exact Hrun|].
  exact (proj2 (@filter_all_meetings_passes_its_flags asciiAndGreek _) _ _ _ Hrun).
Defined.

Lemma transcript_succeeds_example :
  isError (@fathom_get_transcript plainTranscriptText (numberOfZ 7)
             (Fulfilled (okResponse transcriptBody))) = None /\
  exists response data segments,
    Fulfilled (okResponse transcriptBody) = Fulfilled response /\
    ok response = true /\
    json response = Fulfilled data /\
    isTranscriptBody data segments /\ readableSegments segments.
Proof.
  split; [reflexivity|].
  apply (proj1 (@transcript_succeeds_exactly_when plainTranscriptText
                  (numberOfZ 7) (Fulfilled (okResponse transcriptBody)))).
  reflexivity.
Defined.
